(** * ProcessSofastFixed: fixed-pattern deflectometry orchestrator

    Shallow embedding of [opencsp/app/sofast/lib/ProcessSofastFixed.py].

    The class is a bag of mutable attributes threaded through calls to
    collaborators (blob detection, mask building, geometry solving, slope
    solving).  The embedding keeps that shape: an instance record whose
    attributes may be missing, a store for the objects that are shared by
    reference (facet definitions, ensemble definitions, surfaces), a log,
    and a state-and-exception monad in which a raised exception keeps the
    state reached so far, as in Python.

    The arithmetic of numpy is a parameter of the development: what is
    proved holds for every choice of it, float64 included. *)

From Corelib Require PrimFloat.
From Stdlib Require Import String List ZArith Lia Bool Arith.
Import ListNotations.

Set Implicit Arguments.

(* ================================================================== *)
(** * Numbers *)
(* ================================================================== *)

(** The numbers of numpy.  [num] stands for float64 with its operations,
    [num_mean] for the mean of a row of a matrix; [pixel] for the element
    type of the measured image, whatever its dtype is, and [pixel_times]
    for [*] by a Python int.  The operations are parameters and no law is
    assumed of them: nothing below rests on an identity of real arithmetic
    that rounding, infinities or nan break. *)
Class Numbers : Type := {
  num : Type;
  num_zero : num;
  num_one : num;
  num_add : num -> num -> num;
  num_mul : num -> num -> num;
  num_div : num -> num -> num;
  num_neg : num -> num;
  num_sqrt : num -> num;
  num_mean : list num -> num;
  pixel : Type;
  pixel_times : pixel -> Z -> pixel
}.

Declare Scope num_scope.
Delimit Scope num_scope with num.
Bind Scope num_scope with num.
Notation "0" := num_zero : num_scope.
Notation "1" := num_one : num_scope.
Infix "+" := num_add : num_scope.
Infix "*" := num_mul : num_scope.
Infix "/" := num_div : num_scope.
Notation "- x" := (num_neg x) : num_scope.

(* ================================================================== *)
(** * Geometry *)
(* ================================================================== *)

(** Modelled from the spec: the geometry classes [Vxyz], [Uxyz], [Vxy],
    scipy's [Rotation] and [TransformXYZ] are imported by the source but
    are not part of it.  They are taken with their usual meaning (spec,
    "Rigid Transform: rotation + translation ... composable, invertible"):
    a vector is a triple, a rotation acts as a 3x3 matrix, a transform is a
    rotation followed by a translation. *)
Module Geometry.
Section Geometry.
Context {Num : Numbers}.

Local Open Scope num_scope.

Definition V3 : Type := (num * num * num)%type.
Definition V2 : Type := (num * num)%type.

Definition vx (v : V3) : num := fst (fst v).
Definition vy (v : V3) : num := snd (fst v).
Definition vz (v : V3) : num := snd v.

Definition ez : V3 := (0, 0, 1).
Definition vzero : V3 := (0, 0, 0).

Definition vadd (a b : V3) : V3 := (vx a + vx b, vy a + vy b, vz a + vz b).
Definition vneg (a : V3) : V3 := (- vx a, - vy a, - vz a).
Definition vdot (a b : V3) : num := vx a * vx b + vy a * vy b + vz a * vz b.
Definition magnitude (a : V3) : num := num_sqrt (vdot a a).

(** [Vxyz.normalize] and the constructor of [Uxyz]: scale to unit length. *)
Definition normalize (a : V3) : V3 :=
  (vx a / magnitude a, vy a / magnitude a, vz a / magnitude a).

(** A [Rotation], by the rows of its matrix. *)
Record Rotation : Type := mkRot {
  r11 : num; r12 : num; r13 : num;
  r21 : num; r22 : num; r23 : num;
  r31 : num; r32 : num; r33 : num
}.

Definition rot_id : Rotation := mkRot 1 0 0 0 1 0 0 0 1.

(** [r1 * r2]: first [r2], then [r1]. *)
Definition rot_mul (a b : Rotation) : Rotation :=
  mkRot
    (r11 a * r11 b + r12 a * r21 b + r13 a * r31 b)
    (r11 a * r12 b + r12 a * r22 b + r13 a * r32 b)
    (r11 a * r13 b + r12 a * r23 b + r13 a * r33 b)
    (r21 a * r11 b + r22 a * r21 b + r23 a * r31 b)
    (r21 a * r12 b + r22 a * r22 b + r23 a * r32 b)
    (r21 a * r13 b + r22 a * r23 b + r23 a * r33 b)
    (r31 a * r11 b + r32 a * r21 b + r33 a * r31 b)
    (r31 a * r12 b + r32 a * r22 b + r33 a * r32 b)
    (r31 a * r13 b + r32 a * r23 b + r33 a * r33 b).

(** [r.inv()]: the inverse of a rotation is its transpose. *)
Definition rot_inv (a : Rotation) : Rotation :=
  mkRot (r11 a) (r21 a) (r31 a)
        (r12 a) (r22 a) (r32 a)
        (r13 a) (r23 a) (r33 a).

(** [v.rotate(r)] for one point. *)
Definition rotate (v : V3) (r : Rotation) : V3 :=
  (r11 r * vx v + r12 r * vy v + r13 r * vz v,
   r21 r * vx v + r22 r * vy v + r23 r * vz v,
   r31 r * vx v + r32 r * vy v + r33 r * vz v).

(** [TransformXYZ]: [apply p = R p + V]. *)
Record TransformXYZ : Type := mkTrans { tR : Rotation; tV : V3 }.

Definition from_R_V (r : Rotation) (v : V3) : TransformXYZ := mkTrans r v.
Definition from_V (v : V3) : TransformXYZ := mkTrans rot_id v.
Definition from_R (r : Rotation) : TransformXYZ := mkTrans r vzero.

(** [t1 * t2]: first [t2], then [t1]. *)
Definition trans_mul (a b : TransformXYZ) : TransformXYZ :=
  mkTrans (rot_mul (tR a) (tR b)) (vadd (rotate (tV b) (tR a)) (tV a)).

Definition trans_apply (t : TransformXYZ) (ps : list V3) : list V3 :=
  map (fun p => vadd (rotate p (tR t)) (tV t)) ps.

(** Arrays of points: a [Vxyz] holding [N] points is a list of [N] triples;
    arithmetic with a one-point vector broadcasts over the list. *)
Definition rotate_all (ps : list V3) (r : Rotation) : list V3 :=
  map (fun p => rotate p r) ps.

Definition vadd_all (v : V3) (ps : list V3) : list V3 := map (vadd v) ps.

(** [Uxyz(data)]: every column scaled to unit length. *)
Definition Uxyz (ps : list V3) : list V3 := map normalize ps.

(** [v.projXY()]. *)
Definition projXY (ps : list V3) : list V2 := map (fun p => (vx p, vy p)) ps.

(** [matrix.mean(1)] of a 3xN matrix given by its columns: the mean of
    each of the three rows. *)
Definition vmean (ps : list V3) : V3 :=
  (num_mean (map vx ps), num_mean (map vy ps), num_mean (map vz ps)).

End Geometry.
End Geometry.
Export Geometry.

(* ================================================================== *)
(** * Python values, exceptions and attributes *)
(* ================================================================== *)

(** References to shared objects. *)
Definition loc : Type := nat.

(** The texts handed to [lt.warn] and [lt.error_and_raise], with the
    numbers their f-strings interpolate. *)
Inductive message : Type :=
| MsgOnlyOnePtKnown (given : nat)
| MsgLengthMismatch (n_facet_def n_surfaces n_pts_known n_xys_known : nat)
| MsgSlopesFirst
| MsgBadReference
| MsgIndexOutOfRange (reference : Z) (num_facets : nat)
| MsgKeepLargestArea
| MsgBroadcast
| MsgCollaborator (text : string).

Inductive exn : Type :=
| ValueError (m : message)
| AttributeError (name : string)
| TypeError
| IndexError.

Inductive Res (A : Type) : Type :=
| Ok (a : A)
| Raise (e : exn).
Arguments Ok {A} a.
Arguments Raise {A} e.

Inductive level : Type := WARN | ERROR.

(** An instance attribute.  [self.x: T] in [__init__] is an annotation only
    and creates nothing: the attribute is [Missing] until it is assigned. *)
Inductive attr (A : Type) : Type :=
| Missing
| PyNone
| Has (a : A).
Arguments Missing {A}.
Arguments PyNone {A}.
Arguments Has {A} a.

Inductive OpticType : Type := Undefined | Single | Multi.

Definition OpticType_eqb (a b : OpticType) : bool :=
  match a, b with
  | Undefined, Undefined | Single, Single | Multi, Multi => true
  | _, _ => false
  end.

(** The [reference] argument of [_calculate_facet_pointing]: a string, an
    int, or an object that is neither. *)
Inductive Reference : Type :=
| RefStr (s : string)
| RefInt (i : Z)
| RefOther.

Inductive InterpolationType : Type := Given | Bilinear | CloughTocher | Nearest.

Definition Mask : Type := list (list bool).

Section Values.
Context {Num : Numbers}.

(** The measured image, by rows. *)
Definition Image : Type := list (list pixel).

(** [cv.SimpleBlobDetector_Params] with the fields [__init__] sets. *)
Record BlobDetectorParams : Type := {
  minDistBetweenBlobs : Z;
  filterByArea : bool;
  minArea : Z;
  maxArea : Z;
  filterByCircularity : bool;
  filterByConvexity : bool;
  filterByInertia : bool
}.

Record MeasurementSofastFixed : Type := {
  image : Image;
  v_measure_point_facet : V3;
  dist_optic_screen : num
}.

Record ParamsMaskCalculation : Type := {
  hist_thresh : num;
  filt_width : Z;
  filt_thresh : Z;
  thresh_active_pixels : num;
  keep_largest_area : bool
}.

(** [cdc.CalculationFacetEnsemble(trans, slopes, points, pointing)]. *)
Record CalculationFacetEnsemble : Type := {
  trans_facet_ensemble : TransformXYZ;
  slopes_ensemble_xy : list V2;
  v_surf_points_ensemble : list V3;
  v_facet_pointing_ensemble : V3
}.

(** What [get_optic] builds: [MirrorPoint(points, normals, shape, interp)]
    wrapped in a [Facet]; a [FacetEnsemble] with its transform list. *)
Record MirrorPoint : Type := {
  mirror_points : list V3;
  mirror_normals : list V3;
  mirror_shape : list V2;
  mirror_interpolation : InterpolationType
}.

Inductive Facet : Type := MkFacet (mirror : MirrorPoint).

Inductive Optic : Type :=
| OpticFacet (f : Facet)
| OpticEnsemble (facets : list Facet) (transforms : list TransformXYZ).

End Values.

(* ================================================================== *)
(** * Collaborators *)
(* ================================================================== *)

(** The record types that collaborators produce and consume, with the
    fields this class reads. *)
Class Records {Num : Numbers} : Type := {
  Camera : Type;
  SpatialOrientation : Type;
  DotLocationsFixedPattern : Type;
  ParamsOpticGeometry : Type;
  DebugOpticsGeometry : Type;
  DebugSettings : Type;
  BlobIndexData : Type;
  LoopXY : Type;
  Surface2DAbstract : Type;
  DefinitionFacet : Type;
  DefinitionEnsemble : Type;
  CalculationDataGeometryGeneral : Type;
  CalculationImageProcessingGeneral : Type;
  CalculationDataGeometryFacet : Type;
  CalculationImageProcessingFacet : Type;
  CalculationError : Type;
  SlopeSolver : Type;
  SlopeSolverData : Type;

  r_cam_screen : SpatialOrientation -> Rotation;
  v_cam_screen_cam : SpatialOrientation -> V3;
  dot_extent : DotLocationsFixedPattern -> list Z;
  v_facet_corners : DefinitionFacet -> list V3;
  v_facet_centroid : DefinitionFacet -> V3;
  r_facet_ensemble : DefinitionEnsemble -> list Rotation;
  v_facet_locations : DefinitionEnsemble -> list V3;
  r_optic_cam_refine_1 : CalculationDataGeometryGeneral -> Rotation;
  r_optic_cam_refine_2 : CalculationDataGeometryGeneral -> Rotation;
  v_cam_optic_cam_refine_2 : CalculationDataGeometryGeneral -> V3;
  v_cam_optic_cam_refine_3 : CalculationDataGeometryGeneral -> V3;
  u_cam_measure_point_facet : CalculationDataGeometryFacet -> V3;
  v_align_point_facet : CalculationDataGeometryFacet -> V3;
  measure_point_screen_distance : CalculationDataGeometryFacet -> num;
  loop_facet_image_refine : CalculationImageProcessingFacet -> LoopXY;
  trans_alignment : SlopeSolverData -> TransformXYZ;
  slopes_facet_xy : SlopeSolverData -> list V2;
  v_surf_points_facet : SlopeSolverData -> list V3
}.

Section Objects.
Context {Num : Numbers} {Rec : Records}.

(** [BlobIndex]: the indexed points and the two search settings the class
    overrides after construction. *)
Record BlobIndex : Type := {
  blob_data : BlobIndexData;
  search_thresh : num;
  search_perp_axis_ratio_of_index : num
}.

(** [DebugSlopeSolver]: [optic_data] refers to a facet definition. *)
Record DebugSlopeSolver : Type := {
  optic_data : option loc;
  debug_settings : DebugSettings
}.

Record ParamsSofastFixed : Type := {
  blob_search_thresh : num;
  search_perp_axis_ratio : num;
  mask : ParamsMaskCalculation;
  geometry : ParamsOpticGeometry;
  debug_geometry : DebugOpticsGeometry;
  debug_slope_solver : DebugSlopeSolver
}.

(** The five records returned by [pr.process_*_geometry]. *)
Definition GeometryRecords : Type :=
  (CalculationDataGeometryGeneral * CalculationImageProcessingGeneral
   * list CalculationDataGeometryFacet * list CalculationImageProcessingFacet
   * CalculationError)%type.

(** The keyword arguments of [SlopeSolver].  The ['debug'] entry is a
    reference to the one object [self.params.debug_slope_solver]; the solver
    sees that object as it is when the solver is built, so it is passed at
    the call and not stored here. *)
Record SlopeSolverArgs : Type := {
  kw_v_optic_cam_optic : V3;
  kw_u_active_pixel_pointing_optic : list V3;
  kw_u_measure_pixel_pointing_optic : V3;
  kw_v_screen_points_facet : list V3;
  kw_v_optic_screen_optic : V3;
  kw_v_align_point_optic : V3;
  kw_dist_optic_screen : num;
  kw_surface : loc
}.

(** The store of the objects that are passed by reference: facet
    definitions, ensemble definitions and surfaces.  A reference is an
    index; a new object is appended. *)
Record Heap : Type := {
  facet_objs : list DefinitionFacet;
  ensemble_objs : list DefinitionEnsemble;
  surface_objs : list Surface2DAbstract
}.

(** The attributes of a [ProcessSofastFixed] instance. *)
Record Instance : Type := MkInstance {
  orientation : SpatialOrientation;
  camera : Camera;
  fixed_pattern_dot_locs : DotLocationsFixedPattern;
  params : ParamsSofastFixed;
  measurement : attr MeasurementSofastFixed;
  blob_detector : BlobDetectorParams;
  num_facets : attr nat;
  optic_type : attr OpticType;
  data_facet_def : attr (list loc);
  data_ensemble_def : attr loc;
  data_surfaces : attr (list loc);
  data_geometry_general : attr CalculationDataGeometryGeneral;
  data_image_proccessing_general : attr CalculationImageProcessingGeneral;
  data_geometry_facet : attr (list CalculationDataGeometryFacet);
  data_image_processing_facet : attr (list CalculationImageProcessingFacet);
  data_error : attr CalculationError;
  data_calculation_facet : attr (list SlopeSolverData);
  data_calculation_ensemble : attr (list CalculationFacetEnsemble);
  slope_solver : attr (list SlopeSolver);
  blob_index : attr BlobIndex
}.

(** The world a call runs in: the instance, the store and the log. *)
Record World : Type := MkWorld {
  self : Instance;
  heap : Heap;
  log : list (level * message)
}.

End Objects.

(** The functions of the collaborators.  Any of them may raise.  Those that
    are handed references to shared objects may change these objects, so
    they take and return the store. *)
Class Collaborators {Num : Numbers} {Rec : Records} : Type := {
  ParamsSofastFixed_default : ParamsSofastFixed;
  detect_blobs : Image -> BlobDetectorParams -> Res (list V2);
  BlobIndex_init : list V2 -> list Z -> Res BlobIndex;
  BlobIndex_run : BlobIndex -> V2 -> Z -> Z -> Res BlobIndex;
  BlobIndex_get_data : BlobIndex -> Res (list V2 * list (Z * Z));
  BlobIndex_get_data_in_region :
    BlobIndex -> LoopXY -> Res (list V2 * list (Z * Z));
  calc_mask_raw :
    list (list (list pixel)) -> num -> Z -> Z -> num -> Res Mask;
  keep_largest_mask_area : Mask -> Res Mask;
  process_singlefacet_geometry :
    loc -> Mask -> V3 -> num -> SpatialOrientation -> Camera ->
    ParamsOpticGeometry -> DebugOpticsGeometry -> Heap ->
    Res GeometryRecords * Heap;
  process_multifacet_geometry :
    list loc -> loc -> Mask -> V3 -> SpatialOrientation -> Camera -> num ->
    ParamsOpticGeometry -> DebugOpticsGeometry -> Heap ->
    Res GeometryRecords * Heap;
  xy_indices_to_screen_coordinates :
    DotLocationsFixedPattern -> list (Z * Z) -> Res (list V3);
  vector_from_pixel : Camera -> list V2 -> Res (list V3);
  SlopeSolver_init :
    SlopeSolverArgs -> DebugSlopeSolver -> Heap -> Res SlopeSolver * Heap;
  fit_surface : SlopeSolver -> Heap -> Res SlopeSolver * Heap;
  solve_slopes : SlopeSolver -> Heap -> Res SlopeSolver * Heap;
  get_data : SlopeSolver -> Res SlopeSolverData;
  align_to : V3 -> V3 -> Res Rotation
}.

(* ================================================================== *)
(** * The class *)
(* ================================================================== *)

Section ProcessSofastFixed.
Context {Num : Numbers} {Rec : Records} {Col : Collaborators}.

(** ** Attribute assignment *)

Definition set_params (v : ParamsSofastFixed) (s : Instance) : Instance :=
  MkInstance (orientation s) (camera s) (fixed_pattern_dot_locs s) v
  (measurement s) (blob_detector s) (num_facets s) (optic_type s)
  (data_facet_def s) (data_ensemble_def s) (data_surfaces s)
  (data_geometry_general s) (data_image_proccessing_general s)
  (data_geometry_facet s) (data_image_processing_facet s) (data_error s)
  (data_calculation_facet s) (data_calculation_ensemble s) (slope_solver s)
  (blob_index s).

Definition set_measurement (v : attr MeasurementSofastFixed) (s : Instance) : Instance :=
  MkInstance (orientation s) (camera s) (fixed_pattern_dot_locs s) (params
  s) v (blob_detector s) (num_facets s) (optic_type s) (data_facet_def s)
  (data_ensemble_def s) (data_surfaces s) (data_geometry_general s)
  (data_image_proccessing_general s) (data_geometry_facet s)
  (data_image_processing_facet s) (data_error s) (data_calculation_facet s)
  (data_calculation_ensemble s) (slope_solver s) (blob_index s).

Definition set_num_facets (v : attr nat) (s : Instance) : Instance :=
  MkInstance (orientation s) (camera s) (fixed_pattern_dot_locs s) (params
  s) (measurement s) (blob_detector s) v (optic_type s) (data_facet_def s)
  (data_ensemble_def s) (data_surfaces s) (data_geometry_general s)
  (data_image_proccessing_general s) (data_geometry_facet s)
  (data_image_processing_facet s) (data_error s) (data_calculation_facet s)
  (data_calculation_ensemble s) (slope_solver s) (blob_index s).

Definition set_optic_type (v : attr OpticType) (s : Instance) : Instance :=
  MkInstance (orientation s) (camera s) (fixed_pattern_dot_locs s) (params
  s) (measurement s) (blob_detector s) (num_facets s) v (data_facet_def s)
  (data_ensemble_def s) (data_surfaces s) (data_geometry_general s)
  (data_image_proccessing_general s) (data_geometry_facet s)
  (data_image_processing_facet s) (data_error s) (data_calculation_facet s)
  (data_calculation_ensemble s) (slope_solver s) (blob_index s).

Definition set_data_facet_def (v : attr (list loc)) (s : Instance) : Instance :=
  MkInstance (orientation s) (camera s) (fixed_pattern_dot_locs s) (params
  s) (measurement s) (blob_detector s) (num_facets s) (optic_type s) v
  (data_ensemble_def s) (data_surfaces s) (data_geometry_general s)
  (data_image_proccessing_general s) (data_geometry_facet s)
  (data_image_processing_facet s) (data_error s) (data_calculation_facet s)
  (data_calculation_ensemble s) (slope_solver s) (blob_index s).

Definition set_data_ensemble_def (v : attr loc) (s : Instance) : Instance :=
  MkInstance (orientation s) (camera s) (fixed_pattern_dot_locs s) (params
  s) (measurement s) (blob_detector s) (num_facets s) (optic_type s)
  (data_facet_def s) v (data_surfaces s) (data_geometry_general s)
  (data_image_proccessing_general s) (data_geometry_facet s)
  (data_image_processing_facet s) (data_error s) (data_calculation_facet s)
  (data_calculation_ensemble s) (slope_solver s) (blob_index s).

Definition set_data_surfaces (v : attr (list loc)) (s : Instance) : Instance :=
  MkInstance (orientation s) (camera s) (fixed_pattern_dot_locs s) (params
  s) (measurement s) (blob_detector s) (num_facets s) (optic_type s)
  (data_facet_def s) (data_ensemble_def s) v (data_geometry_general s)
  (data_image_proccessing_general s) (data_geometry_facet s)
  (data_image_processing_facet s) (data_error s) (data_calculation_facet s)
  (data_calculation_ensemble s) (slope_solver s) (blob_index s).

Definition set_data_geometry_general (v : attr CalculationDataGeometryGeneral) (s : Instance) : Instance :=
  MkInstance (orientation s) (camera s) (fixed_pattern_dot_locs s) (params
  s) (measurement s) (blob_detector s) (num_facets s) (optic_type s)
  (data_facet_def s) (data_ensemble_def s) (data_surfaces s) v
  (data_image_proccessing_general s) (data_geometry_facet s)
  (data_image_processing_facet s) (data_error s) (data_calculation_facet s)
  (data_calculation_ensemble s) (slope_solver s) (blob_index s).

Definition set_data_image_proccessing_general (v : attr CalculationImageProcessingGeneral) (s : Instance) : Instance :=
  MkInstance (orientation s) (camera s) (fixed_pattern_dot_locs s) (params
  s) (measurement s) (blob_detector s) (num_facets s) (optic_type s)
  (data_facet_def s) (data_ensemble_def s) (data_surfaces s)
  (data_geometry_general s) v (data_geometry_facet s)
  (data_image_processing_facet s) (data_error s) (data_calculation_facet s)
  (data_calculation_ensemble s) (slope_solver s) (blob_index s).

Definition set_data_geometry_facet (v : attr (list CalculationDataGeometryFacet)) (s : Instance) : Instance :=
  MkInstance (orientation s) (camera s) (fixed_pattern_dot_locs s) (params
  s) (measurement s) (blob_detector s) (num_facets s) (optic_type s)
  (data_facet_def s) (data_ensemble_def s) (data_surfaces s)
  (data_geometry_general s) (data_image_proccessing_general s) v
  (data_image_processing_facet s) (data_error s) (data_calculation_facet s)
  (data_calculation_ensemble s) (slope_solver s) (blob_index s).

Definition set_data_image_processing_facet (v : attr (list CalculationImageProcessingFacet)) (s : Instance) : Instance :=
  MkInstance (orientation s) (camera s) (fixed_pattern_dot_locs s) (params
  s) (measurement s) (blob_detector s) (num_facets s) (optic_type s)
  (data_facet_def s) (data_ensemble_def s) (data_surfaces s)
  (data_geometry_general s) (data_image_proccessing_general s)
  (data_geometry_facet s) v (data_error s) (data_calculation_facet s)
  (data_calculation_ensemble s) (slope_solver s) (blob_index s).

Definition set_data_error (v : attr CalculationError) (s : Instance) : Instance :=
  MkInstance (orientation s) (camera s) (fixed_pattern_dot_locs s) (params
  s) (measurement s) (blob_detector s) (num_facets s) (optic_type s)
  (data_facet_def s) (data_ensemble_def s) (data_surfaces s)
  (data_geometry_general s) (data_image_proccessing_general s)
  (data_geometry_facet s) (data_image_processing_facet s) v
  (data_calculation_facet s) (data_calculation_ensemble s) (slope_solver s)
  (blob_index s).

Definition set_data_calculation_facet (v : attr (list SlopeSolverData)) (s : Instance) : Instance :=
  MkInstance (orientation s) (camera s) (fixed_pattern_dot_locs s) (params
  s) (measurement s) (blob_detector s) (num_facets s) (optic_type s)
  (data_facet_def s) (data_ensemble_def s) (data_surfaces s)
  (data_geometry_general s) (data_image_proccessing_general s)
  (data_geometry_facet s) (data_image_processing_facet s) (data_error s) v
  (data_calculation_ensemble s) (slope_solver s) (blob_index s).

Definition set_data_calculation_ensemble (v : attr (list CalculationFacetEnsemble)) (s : Instance) : Instance :=
  MkInstance (orientation s) (camera s) (fixed_pattern_dot_locs s) (params
  s) (measurement s) (blob_detector s) (num_facets s) (optic_type s)
  (data_facet_def s) (data_ensemble_def s) (data_surfaces s)
  (data_geometry_general s) (data_image_proccessing_general s)
  (data_geometry_facet s) (data_image_processing_facet s) (data_error s)
  (data_calculation_facet s) v (slope_solver s) (blob_index s).

Definition set_slope_solver (v : attr (list SlopeSolver)) (s : Instance) : Instance :=
  MkInstance (orientation s) (camera s) (fixed_pattern_dot_locs s) (params
  s) (measurement s) (blob_detector s) (num_facets s) (optic_type s)
  (data_facet_def s) (data_ensemble_def s) (data_surfaces s)
  (data_geometry_general s) (data_image_proccessing_general s)
  (data_geometry_facet s) (data_image_processing_facet s) (data_error s)
  (data_calculation_facet s) (data_calculation_ensemble s) v (blob_index s).

Definition set_blob_index (v : attr BlobIndex) (s : Instance) : Instance :=
  MkInstance (orientation s) (camera s) (fixed_pattern_dot_locs s) (params
  s) (measurement s) (blob_detector s) (num_facets s) (optic_type s)
  (data_facet_def s) (data_ensemble_def s) (data_surfaces s)
  (data_geometry_general s) (data_image_proccessing_general s)
  (data_geometry_facet s) (data_image_processing_facet s) (data_error s)
  (data_calculation_facet s) (data_calculation_ensemble s) (slope_solver s)
  v.

Definition set_self (s : Instance) (w : World) : World :=
  MkWorld s (heap w) (log w).

Definition set_heap (h : Heap) (w : World) : World :=
  MkWorld (self w) h (log w).

Definition add_log (l : level) (m : message) (w : World) : World :=
  MkWorld (self w) (heap w) (log w ++ [(l, m)]).

(** [self.params.mask.keep_largest_area = b] *)
Definition with_keep_largest_area (b : bool) (p : ParamsSofastFixed)
  : ParamsSofastFixed :=
  {| blob_search_thresh := blob_search_thresh p;
     search_perp_axis_ratio := search_perp_axis_ratio p;
     mask := {| hist_thresh := hist_thresh (mask p);
                filt_width := filt_width (mask p);
                filt_thresh := filt_thresh (mask p);
                thresh_active_pixels := thresh_active_pixels (mask p);
                keep_largest_area := b |};
     geometry := geometry p;
     debug_geometry := debug_geometry p;
     debug_slope_solver := debug_slope_solver p |}.

(** [self.params.debug_slope_solver.optic_data = d] *)
Definition with_optic_data (d : loc) (p : ParamsSofastFixed)
  : ParamsSofastFixed :=
  {| blob_search_thresh := blob_search_thresh p;
     search_perp_axis_ratio := search_perp_axis_ratio p;
     mask := mask p;
     geometry := geometry p;
     debug_geometry := debug_geometry p;
     debug_slope_solver :=
       {| optic_data := Some d;
          debug_settings := debug_settings (debug_slope_solver p) |} |}.

(** ** The monad of a method call

    A computation takes the world and gives a result or an exception,
    together with the world as it is then: what was assigned before an
    exception was raised stays assigned. *)

Definition M (A : Type) : Type := World -> Res A * World.

Definition ret {A} (a : A) : M A := fun w => (Ok a, w).

Definition bind {A B} (m : M A) (f : A -> M B) : M B :=
  fun w =>
    match m w with
    | (Ok a, w') => f a w'
    | (Raise e, w') => (Raise e, w')
    end.

Definition raise {A} (e : exn) : M A := fun w => (Raise e, w).

(** A collaborator call that touches no shared object. *)
Definition lift {A} (r : Res A) : M A := fun w => (r, w).

(** A collaborator call that may change shared objects. *)
Definition with_heap {A} (f : Heap -> Res A * Heap) : M A :=
  fun w => let (r, h) := f (heap w) in (r, set_heap h w).

Definition read {A} (f : Instance -> A) : M A :=
  fun w => (Ok (f (self w)), w).

Definition update (f : Instance -> Instance) : M unit :=
  fun w => (Ok tt, set_self (f (self w)) w).

End ProcessSofastFixed.

Declare Scope py_scope.
Delimit Scope py_scope with py.
Notation "x <- m ;; k" := (bind m (fun x => k))
  (at level 61, m at next level, right associativity) : py_scope.
Notation "' pat <- m ;; k" := (bind m (fun x => match x with pat => k end))
  (at level 61, pat pattern, m at next level, right associativity) : py_scope.
Notation "m ;; k" := (bind m (fun _ => k))
  (at level 61, right associativity) : py_scope.

Section Methods.
Context {Num : Numbers} {Rec : Records} {Col : Collaborators}.
Local Open Scope py_scope.

(** ** Reading attributes and subscripting *)

(** [self.<name>]: [AttributeError] when the attribute was never assigned. *)
Definition getattr {A} (name : string) (f : Instance -> attr A)
  : M (option A) :=
  fun w =>
    match f (self w) with
    | Missing => (Raise (AttributeError name), w)
    | PyNone => (Ok None, w)
    | Has a => (Ok (Some a), w)
    end.

(** [value.<member>]: [None] has no members. *)
Definition dot {A} (member : string) (o : option A) : M A :=
  match o with
  | Some a => ret a
  | None => raise (AttributeError member)
  end.

(** A value used where [None] is not accepted ([range(None)],
    [None[0]], [1 >= None]). *)
Definition not_none {A} (o : option A) : M A :=
  match o with
  | Some a => ret a
  | None => raise TypeError
  end.

(** [l[i]] for [i >= 0]. *)
Definition subscript {A} (l : list A) (i : nat) : M A :=
  match nth_error l i with
  | Some a => ret a
  | None => raise IndexError
  end.

(** [matrix[:, i]] for a Python int [i]: negative indices count from the
    end. *)
Definition column {A} (l : list A) (i : Z) : M A :=
  if (0 <=? i)%Z then subscript l (Z.to_nat i)
  else if (- Z.of_nat (length l) <=? i)%Z
       then subscript l (Z.to_nat (Z.of_nat (length l) + i))
       else raise IndexError.

(** [lt.warn(msg)] and [lt.error_and_raise(cls, msg)]. *)
Definition warn (m : message) : M unit :=
  fun w => (Ok tt, add_log WARN m w).

Definition error_and_raise {A} (cls : message -> exn) (m : message) : M A :=
  fun w => (Raise (cls m), add_log ERROR m w).

(** [for x in xs: ...] collecting what each pass appends to a local list. *)
Fixpoint for_each {A B} (xs : list A) (body : A -> M B) : M (list B) :=
  match xs with
  | [] => ret []
  | x :: xs' => b <- body x ;; bs <- for_each xs' body ;; ret (b :: bs)
  end.

(** [for x in xs: ...] for its effects. *)
Fixpoint for_do {A} (xs : list A) (body : A -> M unit) : M unit :=
  match xs with
  | [] => ret tt
  | x :: xs' => body x ;; for_do xs' body
  end.

(** ** Shared objects *)

(** Following a reference.  A reference to no object, which Python cannot
    produce, is reported as a [TypeError]. *)
Definition deref_facet (l : loc) : M DefinitionFacet :=
  fun w =>
    match nth_error (facet_objs (heap w)) l with
    | Some d => (Ok d, w)
    | None => (Raise TypeError, w)
    end.

Definition deref_ensemble (l : loc) : M DefinitionEnsemble :=
  fun w =>
    match nth_error (ensemble_objs (heap w)) l with
    | Some d => (Ok d, w)
    | None => (Raise TypeError, w)
    end.

Definition alloc_facet (d : DefinitionFacet) (h : Heap) : Heap :=
  {| facet_objs := facet_objs h ++ [d];
     ensemble_objs := ensemble_objs h;
     surface_objs := surface_objs h |}.

Definition alloc_ensemble (d : DefinitionEnsemble) (h : Heap) : Heap :=
  {| facet_objs := facet_objs h;
     ensemble_objs := ensemble_objs h ++ [d];
     surface_objs := surface_objs h |}.

(** Modelled from the spec: [DefinitionFacet.copy] and
    [DefinitionEnsemble.copy] are not in the source.  A copy is a new
    object with the contents of the original; the definitions are the
    caller's "read-only reference" data. *)
Definition copy_facet (l : loc) : M loc :=
  d <- deref_facet l ;;
  fun w => (Ok (length (facet_objs (heap w))),
            set_heap (alloc_facet d (heap w)) w).

Definition copy_ensemble (l : loc) : M loc :=
  d <- deref_ensemble l ;;
  fun w => (Ok (length (ensemble_objs (heap w))),
            set_heap (alloc_ensemble d (heap w)) w).

(** ** [__init__] *)

Definition init (o : SpatialOrientation) (c : Camera)
  (dots : DotLocationsFixedPattern) : Instance :=
  {| orientation := o;
     camera := c;
     fixed_pattern_dot_locs := dots;
     params := ParamsSofastFixed_default;
     measurement := Missing;
     blob_detector :=
       {| minDistBetweenBlobs := 2;
          filterByArea := true;
          minArea := 3;
          maxArea := 30;
          filterByCircularity := false;
          filterByConvexity := false;
          filterByInertia := false |};
     num_facets := PyNone;
     optic_type := PyNone;
     data_facet_def := Missing;
     data_ensemble_def := Missing;
     data_surfaces := Missing;
     data_geometry_general := Missing;
     data_image_proccessing_general := Missing;
     data_geometry_facet := Missing;
     data_image_processing_facet := Missing;
     data_error := Missing;
     data_calculation_facet := Missing;
     data_calculation_ensemble := Missing;
     slope_solver := Missing;
     blob_index := Missing |}.

(** ** [find_blobs] *)

(** [for pt_known, xy_known in zip(pts_known, xys_known):
       blob_index.run(pt_known, xy_known[0], xy_known[1])] *)
Fixpoint run_known (b : BlobIndex) (known : list (V2 * (Z * Z)))
  : Res BlobIndex :=
  match known with
  | [] => Ok b
  | (pt, xy) :: rest =>
      match BlobIndex_run b pt (fst xy) (snd xy) with
      | Ok b' => run_known b' rest
      | Raise e => Raise e
      end
  end.

Definition find_blobs (pts_known : list V2) (xys_known : list (Z * Z))
  : M BlobIndex :=
  ms <- getattr "measurement" measurement ;;
  m <- dot "image" ms ;;
  detector <- read blob_detector ;;
  pts_blob <- lift (detect_blobs (image m) detector) ;;
  dots <- read fixed_pattern_dot_locs ;;
  b <- lift (BlobIndex_init pts_blob (dot_extent dots)) ;;
  p <- read params ;;
  let b1 := {| blob_data := blob_data b;
               search_thresh := blob_search_thresh p;
               search_perp_axis_ratio_of_index :=
                 search_perp_axis_ratio_of_index b |} in
  p <- read params ;;
  let b2 := {| blob_data := blob_data b1;
               search_thresh := search_thresh b1;
               search_perp_axis_ratio_of_index := search_perp_axis_ratio p |} in
  lift (run_known b2 (combine pts_known xys_known)).

(** ** [_calculate_mask] *)

(** [image * 0] *)
Definition image_times (im : Image) (k : Z) : Image :=
  map (map (fun px => pixel_times px k)) im.

(** [np.concatenate((a[..., None], b[..., None]), axis=2)]: per pixel, the
    value of [a] then the value of [b]. *)
Definition stack_images (a b : Image) : list (list (list pixel)) :=
  map (fun rows => map (fun px => [fst px; snd px])
                       (combine (fst rows) (snd rows)))
      (combine a b).

Definition _calculate_mask : M Mask :=
  ms <- getattr "measurement" measurement ;;
  m <- dot "image" ms ;;
  let im_dark := image_times (image m) 0 in
  ms' <- getattr "measurement" measurement ;;
  m' <- dot "image" ms' ;;
  let images := stack_images im_dark (image m') in
  p <- read params ;;
  mask_raw <- lift (calc_mask_raw images
                      (hist_thresh (mask p)) (filt_width (mask p))
                      (filt_thresh (mask p)) (thresh_active_pixels (mask p))) ;;
  ot <- getattr "optic_type" optic_type ;;
  p <- read params ;;
  if match ot with Some Multi => true | _ => false end
     && keep_largest_area (mask p)
  then
    warn MsgKeepLargestArea ;;
    p <- read params ;;
    update (set_params (with_keep_largest_area false p)) ;;
    ret mask_raw
  else
    p <- read params ;;
    if keep_largest_area (mask p)
    then lift (keep_largest_mask_area mask_raw)
    else ret mask_raw.

(** ** [load_measurement_data] *)

Definition load_measurement_data (m : MeasurementSofastFixed) : M unit :=
  update (set_measurement (Has m)).

(** ** [_process_optic_singlefacet_geometry] *)

Definition store_geometry (g : GeometryRecords) : M unit :=
  let '(general, image_general, facets, image_facets, err) := g in
  update (set_data_geometry_general (Has general)) ;;
  update (set_data_image_proccessing_general (Has image_general)) ;;
  update (set_data_geometry_facet (Has facets)) ;;
  update (set_data_image_processing_facet (Has image_facets)) ;;
  update (set_data_error (Has err)).

Definition _process_optic_singlefacet_geometry
  (blob_index_arg : BlobIndex) (mask_raw : Mask) : M SlopeSolverArgs :=
  (* Process optic geometry *)
  fds <- getattr "data_facet_def" data_facet_def ;;
  fds <- not_none fds ;;
  fd0 <- subscript fds 0 ;;
  ms <- getattr "measurement" measurement ;;
  m <- dot "v_measure_point_facet" ms ;;
  ms' <- getattr "measurement" measurement ;;
  m' <- dot "dist_optic_screen" ms' ;;
  o <- read orientation ;;
  c <- read camera ;;
  p <- read params ;;
  g <- with_heap (process_singlefacet_geometry fd0 mask_raw
                    (v_measure_point_facet m) (dist_optic_screen m')
                    o c (geometry p) (debug_geometry p)) ;;
  store_geometry g ;;
  (* Get image points and blob indices *)
  '(pts_image, pts_index_xy) <- lift (BlobIndex_get_data blob_index_arg) ;;
  (* Define optic orientation w.r.t. camera *)
  gg <- getattr "data_geometry_general" data_geometry_general ;;
  gg1 <- dot "r_optic_cam_refine_1" gg ;;
  let rot_optic_cam := r_optic_cam_refine_1 gg1 in
  gg <- getattr "data_geometry_general" data_geometry_general ;;
  gg2 <- dot "v_cam_optic_cam_refine_2" gg ;;
  let v_cam_optic_cam := v_cam_optic_cam_refine_2 gg2 in
  gfs <- getattr "data_geometry_facet" data_geometry_facet ;;
  gfs <- not_none gfs ;;
  gf0 <- subscript gfs 0 ;;
  let u_cam_measure_point_facet_0 := u_cam_measure_point_facet gf0 in
  (* Get screen/camera poses *)
  let rot_cam_optic := rot_inv rot_optic_cam in
  o <- read orientation ;;
  let rot_optic_screen := rot_mul (r_cam_screen o) rot_optic_cam in
  let rot_screen_optic := rot_inv rot_optic_screen in
  let v_optic_cam_optic := vneg (rotate v_cam_optic_cam rot_cam_optic) in
  o <- read orientation ;;
  let v_cam_screen_optic := rotate (v_cam_screen_cam o) rot_cam_optic in
  let v_optic_screen_optic := vadd v_optic_cam_optic v_cam_screen_optic in
  (* Calculate xyz screen points *)
  dots <- read fixed_pattern_dot_locs ;;
  v_screen_points_screen <-
    lift (xy_indices_to_screen_coordinates dots pts_index_xy) ;;
  let v_screen_points_facet :=
    vadd_all v_optic_screen_optic
             (rotate_all v_screen_points_screen rot_screen_optic) in
  (* Calculate active pixel pointing *)
  c <- read camera ;;
  u_pixel_pointing_cam <- lift (vector_from_pixel c pts_image) ;;
  let u_pixel_pointing_facet := rotate_all u_pixel_pointing_cam rot_cam_optic in
  (* Update debug data *)
  fds <- getattr "data_facet_def" data_facet_def ;;
  fds <- not_none fds ;;
  fd0 <- subscript fds 0 ;;
  p <- read params ;;
  update (set_params (with_optic_data fd0 p)) ;;
  (* Construct surface kwargs *)
  fds <- getattr "data_facet_def" data_facet_def ;;
  fds <- not_none fds ;;
  fd0 <- subscript fds 0 ;;
  d0 <- deref_facet fd0 ;;
  ms <- getattr "measurement" measurement ;;
  m <- dot "dist_optic_screen" ms ;;
  ss <- getattr "data_surfaces" data_surfaces ;;
  ss <- not_none ss ;;
  s0 <- subscript ss 0 ;;
  ret {| kw_v_optic_cam_optic := v_optic_cam_optic;
         kw_u_active_pixel_pointing_optic := u_pixel_pointing_facet;
         kw_u_measure_pixel_pointing_optic := u_cam_measure_point_facet_0;
         kw_v_screen_points_facet := v_screen_points_facet;
         kw_v_optic_screen_optic := v_optic_screen_optic;
         kw_v_align_point_optic := v_facet_centroid d0;
         kw_dist_optic_screen := dist_optic_screen m;
         kw_surface := s0 |}.

(** ** [_process_optic_multifacet_geometry] *)

(** The body of [for idx_facet in range(self.num_facets)]. *)
Definition multifacet_kwargs (blob_index_arg : BlobIndex) (idx_facet : nat)
  : M SlopeSolverArgs :=
  (* Get pixel region of current facet *)
  ipfs <- getattr "data_image_processing_facet" data_image_processing_facet ;;
  ipfs <- not_none ipfs ;;
  ipf <- subscript ipfs idx_facet ;;
  let loop := loop_facet_image_refine ipf in
  (* Get image points and blob indices *)
  '(pts_image, pts_index_xy) <-
    lift (BlobIndex_get_data_in_region blob_index_arg loop) ;;
  (* Define optic orientation w.r.t. camera *)
  ed <- getattr "data_ensemble_def" data_ensemble_def ;;
  ed <- dot "r_facet_ensemble" ed ;;
  e <- deref_ensemble ed ;;
  rot_facet_ensemble <- subscript (r_facet_ensemble e) idx_facet ;;
  gg <- getattr "data_geometry_general" data_geometry_general ;;
  gg <- dot "r_optic_cam_refine_2" gg ;;
  let rot_ensemble_cam := r_optic_cam_refine_2 gg in
  let rot_facet_cam := rot_mul rot_ensemble_cam rot_facet_ensemble in
  gg <- getattr "data_geometry_general" data_geometry_general ;;
  gg <- dot "v_cam_optic_cam_refine_3" gg ;;
  let v_cam_ensemble_cam := v_cam_optic_cam_refine_3 gg in
  ed <- getattr "data_ensemble_def" data_ensemble_def ;;
  ed <- dot "v_facet_locations" ed ;;
  e <- deref_ensemble ed ;;
  v_ensemble_facet_ensemble <- subscript (v_facet_locations e) idx_facet ;;
  let v_ensemble_facet_cam :=
    rotate v_ensemble_facet_ensemble rot_ensemble_cam in
  let v_cam_facet_cam := vadd v_cam_ensemble_cam v_ensemble_facet_cam in
  gfs <- getattr "data_geometry_facet" data_geometry_facet ;;
  gfs <- not_none gfs ;;
  gf <- subscript gfs idx_facet ;;
  let u_cam_measure_point_facet_i := u_cam_measure_point_facet gf in
  (* Get screen/camera poses *)
  let rot_cam_facet := rot_inv rot_facet_cam in
  o <- read orientation ;;
  let rot_facet_screen := rot_mul (r_cam_screen o) rot_facet_cam in
  let rot_screen_facet := rot_inv rot_facet_screen in
  let v_facet_cam_facet := vneg (rotate v_cam_facet_cam rot_cam_facet) in
  o <- read orientation ;;
  let v_cam_screen_facet := rotate (v_cam_screen_cam o) rot_cam_facet in
  let v_facet_screen_facet := vadd v_facet_cam_facet v_cam_screen_facet in
  (* Calculate xyz screen points *)
  dots <- read fixed_pattern_dot_locs ;;
  v_screen_points_screen <-
    lift (xy_indices_to_screen_coordinates dots pts_index_xy) ;;
  let v_screen_points_facet :=
    vadd_all v_facet_screen_facet
             (rotate_all v_screen_points_screen rot_screen_facet) in
  (* Calculate active pixel pointing *)
  c <- read camera ;;
  u_pixel_pointing_cam <- lift (vector_from_pixel c pts_image) ;;
  let u_pixel_pointing_facet := rotate_all u_pixel_pointing_cam rot_cam_facet in
  (* Update debug data *)
  fds <- getattr "data_facet_def" data_facet_def ;;
  fds <- not_none fds ;;
  fd <- subscript fds idx_facet ;;
  p <- read params ;;
  update (set_params (with_optic_data fd p)) ;;
  (* Construct list of surface kwargs *)
  gfs <- getattr "data_geometry_facet" data_geometry_facet ;;
  gfs <- not_none gfs ;;
  gf_align <- subscript gfs idx_facet ;;
  gfs <- getattr "data_geometry_facet" data_geometry_facet ;;
  gfs <- not_none gfs ;;
  gf_dist <- subscript gfs idx_facet ;;
  ss <- getattr "data_surfaces" data_surfaces ;;
  ss <- not_none ss ;;
  s <- subscript ss idx_facet ;;
  ret {| kw_v_optic_cam_optic := v_facet_cam_facet;
         kw_u_active_pixel_pointing_optic := u_pixel_pointing_facet;
         kw_u_measure_pixel_pointing_optic := u_cam_measure_point_facet_i;
         kw_v_screen_points_facet := v_screen_points_facet;
         kw_v_optic_screen_optic := v_facet_screen_facet;
         kw_v_align_point_optic := v_align_point_facet gf_align;
         kw_dist_optic_screen := measure_point_screen_distance gf_dist;
         kw_surface := s |}.

Definition _process_optic_multifacet_geometry
  (blob_index_arg : BlobIndex) (mask_raw : Mask) : M (list SlopeSolverArgs) :=
  (* Process optic geometry *)
  fds <- getattr "data_facet_def" data_facet_def ;;
  fds <- not_none fds ;;
  ed <- getattr "data_ensemble_def" data_ensemble_def ;;
  ed <- not_none ed ;;
  ms <- getattr "measurement" measurement ;;
  m <- dot "v_measure_point_facet" ms ;;
  o <- read orientation ;;
  c <- read camera ;;
  ms' <- getattr "measurement" measurement ;;
  m' <- dot "dist_optic_screen" ms' ;;
  p <- read params ;;
  g <- with_heap (process_multifacet_geometry fds ed mask_raw
                    (v_measure_point_facet m) o c (dist_optic_screen m')
                    (geometry p) (debug_geometry p)) ;;
  store_geometry g ;;
  nf <- getattr "num_facets" num_facets ;;
  n <- not_none nf ;;
  for_each (seq 0 n) (multifacet_kwargs blob_index_arg).

(** ** Solving one facet

    [SlopeSolver] built from the kwargs, [fit_surface()], [solve_slopes()].  The solver
    is built with the debug object as it is at that moment. *)
Definition build_and_solve (kwargs : SlopeSolverArgs) : M SlopeSolver :=
  p <- read params ;;
  solver <- with_heap (SlopeSolver_init kwargs (debug_slope_solver p)) ;;
  solver <- with_heap (fit_surface solver) ;;
  with_heap (solve_slopes solver).


(** ** [_calculate_facet_pointing] *)

(** First loop body: the facet-to-ensemble transform of facet [idx] before
    the pointing correction, and its pointing vector. *)
Definition facet_transform (idx : nat) : M (TransformXYZ * V3) :=
  (* Get transformation from user-input and slope solving *)
  ed <- getattr "data_ensemble_def" data_ensemble_def ;;
  ed <- dot "r_facet_ensemble" ed ;;
  e <- deref_ensemble ed ;;
  r <- subscript (r_facet_ensemble e) idx ;;
  ed <- getattr "data_ensemble_def" data_ensemble_def ;;
  ed <- dot "v_facet_locations" ed ;;
  e <- deref_ensemble ed ;;
  v <- subscript (v_facet_locations e) idx ;;
  let trans_1 := from_R_V r v in
  dcf <- getattr "data_calculation_facet" data_calculation_facet ;;
  dcf <- not_none dcf ;;
  d <- subscript dcf idx ;;
  let trans_2 := trans_alignment d in
  (* Calculate inverse of slope solving transform *)
  let trans_2 :=
    trans_mul (from_V (vneg (tV trans_2))) (from_R (rot_inv (tR trans_2))) in
  (* Create local to global transformation *)
  let t := trans_mul trans_2 trans_1 in
  (* Calculate pointing vector in ensemble coordinates *)
  let v_pointing := rotate ez (tR t) in
  ret (t, v_pointing).

(** The reference pointing direction. *)
Definition reference_pointing (reference : Reference)
  (v_pointing_matrix : list V3) : M V3 :=
  match reference with
  | RefInt i => column v_pointing_matrix i
  | RefStr s =>
      if String.eqb s "average" then ret (vmean v_pointing_matrix)
      else raise TypeError
  | RefOther => raise TypeError
  end.

(** Slopes to unit normals: [ones((3, n))], rows 0 and 1 set to [-slopes],
    then [Uxyz]. *)
Definition slope_normals (slopes : list V2) : list V3 :=
  Uxyz (map (fun s => (- fst s, - snd s, 1)%num) slopes).

(** Normals to slopes: [-data[:2] / data[2:]]. *)
Definition normals_to_slopes (us : list V3) : list V2 :=
  map (fun u => (- vx u / vz u, - vy u / vz u)%num) us.

(** Second loop body: the ensemble record of facet [idx]. *)
Definition facet_ensemble_data (trans_facet_ensemble_list : list TransformXYZ)
  (idx : nat) : M unit :=
  (* Get slope data *)
  dcf <- getattr "data_calculation_facet" data_calculation_facet ;;
  dcf <- not_none dcf ;;
  d <- subscript dcf idx ;;
  let slopes := slopes_facet_xy d in
  (* Calculate surface normals in local (facet) coordinates *)
  let u_surf_norms := slope_normals slopes in
  (* Apply rotation to normal vectors *)
  t <- subscript trans_facet_ensemble_list idx ;;
  let u_surf_norms_global := rotate_all u_surf_norms (tR t) in
  (* Convert normal vectors to global (ensemble) slopes *)
  let slopes_ensemble := normals_to_slopes u_surf_norms_global in
  (* Convert surface points to global (ensemble) coordinates *)
  t' <- subscript trans_facet_ensemble_list idx ;;
  dcf <- getattr "data_calculation_facet" data_calculation_facet ;;
  dcf <- not_none dcf ;;
  d' <- subscript dcf idx ;;
  let v_surf_points := trans_apply t' (v_surf_points_facet d') in
  (* Calculate pointing vectors in ensemble coordinates *)
  t'' <- subscript trans_facet_ensemble_list idx ;;
  let v_facet_pointing := rotate ez (tR t'') in
  t0 <- subscript trans_facet_ensemble_list idx ;;
  let data := {| trans_facet_ensemble := t0;
                 slopes_ensemble_xy := slopes_ensemble;
                 v_surf_points_ensemble := v_surf_points;
                 v_facet_pointing_ensemble := v_facet_pointing |} in
  dce <- getattr "data_calculation_ensemble" data_calculation_ensemble ;;
  dce <- dot "append" dce ;;
  update (set_data_calculation_ensemble (Has (dce ++ [data]))).

Definition _calculate_facet_pointing (reference : Reference) : M unit :=
  dcf <- getattr "data_calculation_facet" data_calculation_facet ;;
  match dcf with
  | None => error_and_raise ValueError MsgSlopesFirst
  | Some _ => ret tt
  end ;;
  match reference with
  | RefInt _ => ret tt
  | RefStr s =>
      if String.eqb s "average" then ret tt
      else error_and_raise ValueError MsgBadReference
  | RefOther => error_and_raise ValueError MsgBadReference
  end ;;
  match reference with
  | RefInt i =>
      nf <- getattr "num_facets" num_facets ;;
      n <- not_none nf ;;
      if (Z.of_nat n <=? i)%Z
      then error_and_raise ValueError (MsgIndexOutOfRange i n)
      else ret tt
  | _ => ret tt
  end ;;
  (* Instantiate data list *)
  update (set_data_calculation_ensemble (Has [])) ;;
  nf <- getattr "num_facets" num_facets ;;
  n <- not_none nf ;;
  nf <- getattr "num_facets" num_facets ;;
  n' <- not_none nf ;;
  tvs <- for_each (seq 0 n') facet_transform ;;
  let trans_facet_ensemble_list := map fst tvs in
  let v_pointing_matrix := map snd tvs in
  (* Calculate reference pointing direction *)
  v_pointing_ref <- reference_pointing reference v_pointing_matrix ;;
  (* Calculate rotation to align pointing vectors *)
  r_align_pointing <- lift (align_to v_pointing_ref ez) ;;
  let trans_align_pointing := from_R r_align_pointing in
  (* Apply alignment rotation to total transformation *)
  let trans_facet_ensemble_list :=
    map (trans_mul trans_align_pointing) trans_facet_ensemble_list in
  (* Calculate global slope and surface points *)
  nf <- getattr "num_facets" num_facets ;;
  n'' <- not_none nf ;;
  for_do (seq 0 n'') (facet_ensemble_data trans_facet_ensemble_list).

(** ** [process_single_facet_optic] *)

Definition process_single_facet_optic (data_facet_def_arg : loc)
  (surface : loc) (pt_known : list V2) (xy_known : Z * Z) : M unit :=
  (* Check inputs *)
  (if negb (length pt_known =? 1)
   then error_and_raise ValueError (MsgOnlyOnePtKnown (length pt_known))
   else ret tt) ;;
  update (set_optic_type (Has Single)) ;;
  update (set_num_facets (Has 1)) ;;
  c <- copy_facet data_facet_def_arg ;;
  update (set_data_facet_def (Has [c])) ;;
  update (set_data_surfaces (Has [surface])) ;;
  (* Find blobs *)
  b <- find_blobs pt_known [xy_known] ;;
  update (set_blob_index (Has b)) ;;
  (* Calculate mask *)
  mask_raw <- _calculate_mask ;;
  (* Generate geometry and slope solver inputs *)
  b <- getattr "blob_index" blob_index ;;
  b <- not_none b ;;
  kwargs <- _process_optic_singlefacet_geometry b mask_raw ;;
  (* Calculate slope *)
  solver <- build_and_solve kwargs ;;
  update (set_slope_solver (Has [solver])) ;;
  d <- lift (get_data solver) ;;
  update (set_data_calculation_facet (Has [d])).

(** ** [process_multi_facet_optic] *)

(** The body of [for kwargs in kwargs_list]. *)
Definition solve_facet (kwargs : SlopeSolverArgs) : M unit :=
  solver <- build_and_solve kwargs ;;
  solvers <- getattr "slope_solver" slope_solver ;;
  solvers <- dot "append" solvers ;;
  update (set_slope_solver (Has (solvers ++ [solver]))) ;;
  dcf <- getattr "data_calculation_facet" data_calculation_facet ;;
  dcf <- dot "append" dcf ;;
  d <- lift (get_data solver) ;;
  update (set_data_calculation_facet (Has (dcf ++ [d]))).

Definition process_multi_facet_optic (data_facet_def_arg : list loc)
  (surfaces : list loc) (data_ensemble_def_arg : loc)
  (pts_known : list V2) (xys_known : list (Z * Z)) : M unit :=
  (* Check inputs: a != b != c != d is (a != b) and (b != c) and (c != d) *)
  (if negb (length data_facet_def_arg =? length surfaces)
      && negb (length surfaces =? length pts_known)
      && negb (length pts_known =? length xys_known)
   then error_and_raise ValueError
          (MsgLengthMismatch (length data_facet_def_arg) (length surfaces)
                             (length pts_known) (length xys_known))
   else ret tt) ;;
  update (set_optic_type (Has Multi)) ;;
  update (set_num_facets (Has (length data_facet_def_arg))) ;;
  cs <- for_each data_facet_def_arg copy_facet ;;
  update (set_data_facet_def (Has cs)) ;;
  ce <- copy_ensemble data_ensemble_def_arg ;;
  update (set_data_ensemble_def (Has ce)) ;;
  update (set_data_surfaces (Has surfaces)) ;;
  (* Find blobs *)
  b <- find_blobs pts_known xys_known ;;
  update (set_blob_index (Has b)) ;;
  (* Calculate mask *)
  mask_raw <- _calculate_mask ;;
  (* Generate geometry and slope solver inputs *)
  b <- getattr "blob_index" blob_index ;;
  b <- not_none b ;;
  kwargs_list <- _process_optic_multifacet_geometry b mask_raw ;;
  (* Calculate slope *)
  update (set_slope_solver (Has [])) ;;
  update (set_data_calculation_facet (Has [])) ;;
  for_do kwargs_list solve_facet ;;
  (* Calculate facet pointing *)
  _calculate_facet_pointing (RefStr "average").

(** ** [get_optic] *)

(** [v_normals_data[:2, :] = slopes] on a [ones((3, n))] array: the shapes
    must agree, a single column is broadcast. *)
Definition set_slope_rows (n : nat) (slopes : list V2) : M (list V3) :=
  if length slopes =? n
  then ret (map (fun s => (fst s, snd s, 1%num)) slopes)
  else match slopes with
       | [s] => ret (repeat (fst s, snd s, 1%num) n)
       | _ => raise (ValueError MsgBroadcast)
       end.

(** The body of [for idx_facet in range(self.num_facets)]. *)
Definition facet_of (interpolation_type : InterpolationType)
  (idx_facet : nat) : M (Facet * option TransformXYZ) :=
  (* Get mirror surface points *)
  dcf <- getattr "data_calculation_facet" data_calculation_facet ;;
  dcf <- not_none dcf ;;
  d <- subscript dcf idx_facet ;;
  let v_surf_pts := v_surf_points_facet d in
  (* Get point normal vectors *)
  dcf <- getattr "data_calculation_facet" data_calculation_facet ;;
  dcf <- not_none dcf ;;
  d' <- subscript dcf idx_facet ;;
  rows <- set_slope_rows (length v_surf_pts) (slopes_facet_xy d') ;;
  (* [v_normals_data[:2, :] *= -1]: in float64 the product with -1 is the
     number with its sign flipped, exactly; it is written as the negation *)
  let v_normals_data :=
    map (fun c => (- vx c, - vy c, vz c)%num) rows in
  let v_normals := Uxyz v_normals_data in
  (* Get optic shape *)
  fds <- getattr "data_facet_def" data_facet_def ;;
  fds <- not_none fds ;;
  fd <- subscript fds idx_facet ;;
  fdv <- deref_facet fd ;;
  let shape := projXY (v_facet_corners fdv) in
  (* Create mirror and facet *)
  let facet := MkFacet {| mirror_points := v_surf_pts;
                          mirror_normals := v_normals;
                          mirror_shape := shape;
                          mirror_interpolation := interpolation_type |} in
  (* Get facet pointing if multi-facet *)
  ot <- getattr "optic_type" optic_type ;;
  match ot with
  | Some Multi =>
      dce <- getattr "data_calculation_ensemble" data_calculation_ensemble ;;
      dce <- not_none dce ;;
      e <- subscript dce idx_facet ;;
      ret (facet, Some (trans_facet_ensemble e))
  | _ => ret (facet, None)
  end.

Definition keep_some {A} (l : list (option A)) : list A :=
  flat_map (fun o => match o with Some a => [a] | None => [] end) l.

Definition get_optic (interpolation_type : InterpolationType) : M Optic :=
  nf <- getattr "num_facets" num_facets ;;
  n <- not_none nf ;;
  fts <- for_each (seq 0 n) (facet_of interpolation_type) ;;
  let facets := map fst fts in
  let trans_list := keep_some (map snd fts) in
  (* Return either ensemble or facet *)
  ot <- getattr "optic_type" optic_type ;;
  match ot with
  | Some Multi => ret (OpticEnsemble facets trans_list)
  | _ => f <- subscript facets 0 ;; ret (OpticFacet f)
  end.

End Methods.

(* ================================================================== *)
(** * Assertions *)
(* ================================================================== *)

Unset Implicit Arguments.

Section Assertions.
Context {Num : Numbers} {Rec : Records} {Col : Collaborators}.

(** A property of the world that a computation keeps, whether it returns
    or raises. *)
Definition stable {A} (P : World -> Prop) (m : M A) : Prop :=
  forall w, P w -> P (snd (m w)).

(** Properties of the instance alone are kept by whatever changes only the
    store or the log. *)
Definition on_self (Q : Instance -> Prop) : World -> Prop :=
  fun w => Q (self w).

(** The attributes that only the two [process_*] methods assign. *)
Definition run_header (ot : OpticType) (n : nat) (s : Instance) : Prop :=
  optic_type s = Has ot /\ num_facets s = Has n.

(** The condition of the check of [process_multi_facet_optic], as Python
    reads [a != b != c != d]. *)
Definition multi_check_fires_on (a b c d : nat) : bool :=
  negb (a =? b) && negb (b =? c) && negb (c =? d).

(** The value of an attribute that is present. *)
Definition attr_value {A} (a : attr A) : option A :=
  match a with
  | Has x => Some x
  | _ => None
  end.

(** The image pair as the claim describes it: for every pixel a dark value
    and the measured value, in this order, where the dark value is the
    measured one times zero. *)
Definition dark_and_measured (im : Image) : list (list (list pixel)) :=
  map (map (fun px => [pixel_times px 0; px])) im.

(** The same with a given dark value in every pixel. *)
Definition constant_dark_and_measured (dark : pixel) (im : Image)
  : list (list (list pixel)) :=
  map (map (fun px => [dark; px])) im.

(** The mask as a function of the measured image, the mask parameters and
    the optic type: the raw mask of the pair above; the largest-area
    filter is applied to it when the option is on, except in a multi-facet
    run. *)
Definition mask_from_image (im : Image) (pm : ParamsMaskCalculation)
  (ot : option OpticType) : Res Mask :=
  match calc_mask_raw (dark_and_measured im)
          (hist_thresh pm) (filt_width pm) (filt_thresh pm)
          (thresh_active_pixels pm) with
  | Raise e => Raise e
  | Ok raw =>
      match ot with
      | Some Multi => Ok raw
      | _ => if keep_largest_area pm then keep_largest_mask_area raw
             else Ok raw
      end
  end.

(** The facet-to-ensemble transform of a facet before the pointing
    correction: the inverse of the slope solver's alignment, after the
    placement given by the ensemble definition. *)
Definition pre_alignment_transform (r : Rotation) (v : V3)
  (d : SlopeSolverData) : TransformXYZ :=
  trans_mul
    (trans_mul (from_V (vneg (tV (trans_alignment d))))
               (from_R (rot_inv (tR (trans_alignment d)))))
    (from_R_V r v).

Definition transform_before (e : DefinitionEnsemble)
  (dcf : list SlopeSolverData) (idx : nat) : option TransformXYZ :=
  match nth_error (r_facet_ensemble e) idx,
        nth_error (v_facet_locations e) idx,
        nth_error dcf idx with
  | Some r, Some v, Some d => Some (pre_alignment_transform r v d)
  | _, _, _ => None
  end.

(** The transforms of facets [0 .. n-1] before the correction. *)
Definition transforms_before (e : DefinitionEnsemble)
  (dcf : list SlopeSolverData) (n : nat) : list TransformXYZ :=
  keep_some (map (transform_before e dcf) (seq 0 n)).

(** The pointing vector of a facet: its optical axis in ensemble
    coordinates. *)
Definition pointing (t : TransformXYZ) : V3 := rotate ez (tR t).

(** The vector handed to [align_to]: the pointing of facet [i], counted
    from the end when [i] is negative, or the mean of all pointings. *)
Definition reference_vector (reference : Reference) (ps : list V3) : V3 :=
  match reference with
  | RefInt i =>
      if (0 <=? i)%Z then nth (Z.to_nat i) ps vzero
      else nth (Z.to_nat (Z.of_nat (length ps) + i)) ps vzero
  | _ => vmean ps
  end.

(** The ensemble record of a facet with final transform [t]. *)
Definition ensemble_record (t : TransformXYZ) (d : SlopeSolverData)
  : CalculationFacetEnsemble :=
  {| trans_facet_ensemble := t;
     slopes_ensemble_xy :=
       normals_to_slopes (rotate_all (slope_normals (slopes_facet_xy d)) (tR t));
     v_surf_points_ensemble := trans_apply t (v_surf_points_facet d);
     v_facet_pointing_ensemble := rotate ez (tR t) |}.

Definition record_at (ts : list TransformXYZ) (dcf : list SlopeSolverData)
  (idx : nat) : option CalculationFacetEnsemble :=
  match nth_error ts idx, nth_error dcf idx with
  | Some t, Some d => Some (ensemble_record t d)
  | _, _ => None
  end.

(** The ensemble-frame slope of one pixel as the claim words it: the unit
    normal along [(-sx, -sy, 1)], rotated by [r], read back as
    [-(x, y) / z]. *)
Definition global_slope (r : Rotation) (s : V2) : V2 :=
  let n := normalize (- fst s, - snd s, 1)%num in
  let g := rotate n r in
  (- vx g / vz g, - vy g / vz g)%num.

(** The attributes a [process_*] call assigns before it looks for blobs,
    with the measurement it works on.  Nothing after that point assigns
    them. *)
Definition run_inputs (ot : OpticType) (n : nat) (fds ss : list loc)
  (ms : attr MeasurementSofastFixed) (ed : attr loc) (s : Instance) : Prop :=
  optic_type s = Has ot
  /\ num_facets s = Has n
  /\ data_facet_def s = Has fds
  /\ data_surfaces s = Has ss
  /\ measurement s = ms
  /\ data_ensemble_def s = ed.

(** The references that get past the checks of
    [_calculate_facet_pointing] on an instance with [n] facets. *)
Definition reference_accepted (reference : Reference) (n : nat) : bool :=
  match reference with
  | RefStr s => String.eqb s "average"
  | RefInt i => negb (Z.of_nat n <=? i)%Z
  | RefOther => false
  end.

(** Two runs of a computation that give the same result and stay related. *)
Definition agree {A} (R : World -> World -> Prop) (m : M A) : Prop :=
  forall w1 w2,
    R w1 w2 -> fst (m w1) = fst (m w2) /\ R (snd (m w1)) (snd (m w2)).

(** What [get_optic] reads: the facet definitions in the store and five
    attributes. *)
Definition same_optic_sources (w1 w2 : World) : Prop :=
  facet_objs (heap w1) = facet_objs (heap w2)
  /\ num_facets (self w1) = num_facets (self w2)
  /\ optic_type (self w1) = optic_type (self w2)
  /\ data_calculation_facet (self w1) = data_calculation_facet (self w2)
  /\ data_facet_def (self w1) = data_facet_def (self w2)
  /\ data_calculation_ensemble (self w1) = data_calculation_ensemble (self w2).

(** What a facet handed out by [get_optic] holds, given the slope record
    [d] and the facet definition [fd] it was built from. *)
Definition facet_built_from (interpolation_type : InterpolationType)
  (d : SlopeSolverData) (fd : DefinitionFacet) (f : Facet) : Prop :=
  match f with
  | MkFacet m =>
      mirror_points m = v_surf_points_facet d
      /\ length (mirror_normals m) = length (mirror_points m)
      /\ (length (slopes_facet_xy d) = length (v_surf_points_facet d) ->
          mirror_normals m = slope_normals (slopes_facet_xy d))
      /\ mirror_shape m = projXY (v_facet_corners fd)
      /\ mirror_interpolation m = interpolation_type
  end.

End Assertions.

(* ================================================================== *)
(** * A small concrete set of collaborators *)
(* ================================================================== *)

(** Concrete collaborators on which calls can be run: a mask builder that
    compares the bright to the dark value of a pixel, a geometry solver that
    rejects an empty mask, a slope solver that counts its fits on the
    surface object and reports one flat pixel. *)
Module Toy.

Import PrimFloat.
Local Open Scope float_scope.

(** The numbers are binary64 floats with their IEEE operations.  The image
    is an array of floats too. *)
Fixpoint float_of_nat (n : nat) : float :=
  match n with
  | O => 0
  | S k => float_of_nat k + 1
  end.

Definition float_of_Z (z : Z) : float :=
  match z with
  | Z0 => 0
  | Zpos p => float_of_nat (Pos.to_nat p)
  | Zneg p => - float_of_nat (Pos.to_nat p)
  end.

#[local] Instance numbers : Numbers := {|
  num := float;
  num_zero := 0;
  num_one := 1;
  num_add := add;
  num_mul := mul;
  num_div := div;
  num_neg := opp;
  num_sqrt := sqrt;
  num_mean := fun row => fold_left add row 0 / float_of_nat (length row);
  pixel := float;
  pixel_times := fun px k => px * float_of_Z k
|}.

Definition identity_transform : TransformXYZ := mkTrans rot_id vzero.

#[local] Instance records : Records := {|
  Camera := unit;
  SpatialOrientation := unit;
  DotLocationsFixedPattern := unit;
  ParamsOpticGeometry := unit;
  DebugOpticsGeometry := unit;
  DebugSettings := unit;
  BlobIndexData := list V2;
  LoopXY := unit;
  Surface2DAbstract := nat;
  DefinitionFacet := (list V3 * V3)%type;
  DefinitionEnsemble := (list Rotation * list V3)%type;
  CalculationDataGeometryGeneral := unit;
  CalculationImageProcessingGeneral := unit;
  CalculationDataGeometryFacet := unit;
  CalculationImageProcessingFacet := unit;
  CalculationError := unit;
  SlopeSolver := loc;
  SlopeSolverData := (TransformXYZ * list V2 * list V3)%type;
  r_cam_screen := fun _ => rot_id;
  v_cam_screen_cam := fun _ => vzero;
  dot_extent := fun _ => [0; 10; 0; 10]%Z;
  v_facet_corners := fst;
  v_facet_centroid := snd;
  r_facet_ensemble := fst;
  v_facet_locations := snd;
  r_optic_cam_refine_1 := fun _ => rot_id;
  r_optic_cam_refine_2 := fun _ => rot_id;
  v_cam_optic_cam_refine_2 := fun _ => vzero;
  v_cam_optic_cam_refine_3 := fun _ => vzero;
  u_cam_measure_point_facet := fun _ => ez;
  v_align_point_facet := fun _ => vzero;
  measure_point_screen_distance := fun _ => 1;
  loop_facet_image_refine := fun _ => tt;
  trans_alignment := fun d => fst (fst d);
  slopes_facet_xy := fun d => snd (fst d);
  v_surf_points_facet := fun d => snd d
|}.

Definition default_params : ParamsSofastFixed :=
  {| blob_search_thresh := 20;
     search_perp_axis_ratio := 3;
     mask := {| hist_thresh := 0.5;
                filt_width := 9;
                filt_thresh := 4;
                thresh_active_pixels := 0.0625;
                keep_largest_area := false |};
     geometry := tt;
     debug_geometry := tt;
     debug_slope_solver := {| optic_data := None; debug_settings := tt |} |}.

(** A pixel belongs to the optic when it is brighter than its dark value. *)
Definition bright_pixels (images : list (list (list float))) : Mask :=
  map (map (fun px => match px with
                      | [d; b] => d <? b
                      | _ => false
                      end)) images.

Definition mask_is_empty (m : Mask) : bool :=
  negb (existsb (existsb (fun b => b)) m).

Definition geometry_records (n : nat) : GeometryRecords :=
  (tt, tt, repeat tt n, repeat tt n, tt).

(** One more fit recorded on the surface object [l]. *)
Fixpoint bump (l : loc) (surfaces : list nat) : list nat :=
  match surfaces, l with
  | [], _ => []
  | s :: rest, O => S s :: rest
  | s :: rest, S l' => s :: bump l' rest
  end.

Definition fit (l : loc) (h : Heap) : Heap :=
  {| facet_objs := facet_objs h;
     ensemble_objs := ensemble_objs h;
     surface_objs := bump l (surface_objs h) |}.

(** The rotation about the y axis that takes the unit vector [u] of the
    xz plane to the z axis. *)
Definition about_y (u : V3) : Rotation :=
  mkRot (vz u) 0 (- vx u) 0 1 0 (vx u) 0 (vz u).

#[local] Instance collaborators : Collaborators := {|
  ParamsSofastFixed_default := default_params;
  detect_blobs := fun _ _ => Ok [(0, 0)];
  BlobIndex_init := fun pts _ =>
    Ok {| blob_data := pts; search_thresh := 0;
          search_perp_axis_ratio_of_index := 0 |};
  BlobIndex_run := fun b _ _ _ => Ok b;
  BlobIndex_get_data := fun b => Ok (blob_data b, [(0, 0)%Z]);
  BlobIndex_get_data_in_region := fun b _ => Ok (blob_data b, [(0, 0)%Z]);
  calc_mask_raw := fun images _ _ _ _ => Ok (bright_pixels images);
  keep_largest_mask_area := fun m => Ok (firstn 1 m);
  process_singlefacet_geometry := fun _ m _ _ _ _ _ _ h =>
    if mask_is_empty m
    then (Raise (ValueError (MsgCollaborator "empty mask")), h)
    else (Ok (geometry_records 1), h);
  process_multifacet_geometry := fun fds _ m _ _ _ _ _ _ h =>
    if mask_is_empty m
    then (Raise (ValueError (MsgCollaborator "empty mask")), h)
    else (Ok (geometry_records (length fds)), h);
  xy_indices_to_screen_coordinates := fun _ idx =>
    Ok (map (fun xy => (float_of_Z (fst xy), float_of_Z (snd xy), 0)) idx);
  vector_from_pixel := fun _ pts => Ok (map (fun _ => ez) pts);
  SlopeSolver_init := fun kw _ h => (Ok (kw_surface kw), h);
  fit_surface := fun solver h => (Ok solver, fit solver h);
  solve_slopes := fun solver h => (Ok solver, h);
  get_data := fun _ => Ok (identity_transform, [(0, 0)], [vzero]);
  align_to := fun v _ => Ok (about_y (normalize v))
|}.

Definition facet_def : DefinitionFacet :=
  ([(0, 0, 0); (1, 0, 0); (1, 1, 0); (0, 1, 0)], (0.5, 0.5, 0)).

Definition ensemble_def (n : nat) : DefinitionEnsemble :=
  (repeat rot_id n, repeat vzero n).

(** Two facets: the first turned about the y axis by a quarter turn, the
    second as the ensemble. *)
Definition quarter_turn : Rotation :=
  mkRot 0 0 1 0 1 0 (-1) 0 0.

Definition tilted_ensemble_def : DefinitionEnsemble :=
  ([quarter_turn; rot_id], [vzero; vzero]).

(** Three facet definitions; an ensemble definition for three facets, one
    for two and the tilted one; two surfaces. *)
Definition store : Heap :=
  {| facet_objs := [facet_def; facet_def; facet_def];
     ensemble_objs := [ensemble_def 3; ensemble_def 2; tilted_ensemble_def];
     surface_objs := [O; O] |}.

Definition measured : MeasurementSofastFixed :=
  {| image := [[5; 7]; [0; 9]];
     v_measure_point_facet := vzero;
     dist_optic_screen := 10 |}.

Definition dark_measured : MeasurementSofastFixed :=
  {| image := [[0; 0]; [0; 0]];
     v_measure_point_facet := vzero;
     dist_optic_screen := 10 |}.

(** A measurement with a saturated pixel. *)
Definition saturated_measured : MeasurementSofastFixed :=
  {| image := [[5; infinity]];
     v_measure_point_facet := vzero;
     dist_optic_screen := 10 |}.

(** A new instance, and worlds in which a measurement has been loaded. *)
Definition fresh : World := MkWorld (init tt tt tt) store [].

Definition loaded : World := snd (load_measurement_data measured fresh).

Definition loaded_dark : World :=
  snd (load_measurement_data dark_measured fresh).

Definition pt : V2 := (0, 0).
Definition xy : (Z * Z) := (0, 0)%Z.

(** The world after two facets were processed as an ensemble. *)
Definition processed_two : World :=
  snd (process_multi_facet_optic [0; 1]%nat [0; 1]%nat 1%nat
         [pt; pt] [xy; xy] loaded).

(** The same for the two tilted facets. *)
Definition processed_tilted : World :=
  snd (process_multi_facet_optic [0; 1]%nat [0; 1]%nat 2%nat
         [pt; pt] [xy; xy] loaded).

(** What the slope solver reports for each facet. *)
Definition flat_pixel : SlopeSolverData :=
  (identity_transform, [(0, 0)], [vzero]).

(** An index that holds no point. *)
Definition no_blobs : BlobIndex :=
  {| blob_data := (@nil V2 : BlobIndexData);
     search_thresh := 0;
     search_perp_axis_ratio_of_index := 0 |}.

(** The world after one facet was processed. *)
Definition processed_single : World :=
  snd (process_single_facet_optic 0%nat 0%nat [pt] xy loaded).

(** The same worlds with [keep_largest_area] switched on by the user, in
    the middle of a multi-facet and of a single-facet run. *)
Definition keeping (ot : OpticType) (w : World) : World :=
  set_self
    (set_optic_type (Has ot)
       (set_params (with_keep_largest_area true (params (self w))) (self w)))
    w.

End Toy.

(* ================================================================== *)
(** * Reasoning about method calls *)
(* ================================================================== *)

Section Stability.
Context {Num : Numbers} {Rec : Records} {Col : Collaborators}.
Local Open Scope py_scope.


Lemma stable_ret {A} P (a : A) : stable P (ret a).
Proof. intros w H; exact H. Qed.

Lemma stable_raise {A} P e : stable P (raise (A:=A) e).
Proof. intros w H; exact H. Qed.

Lemma stable_lift {A} P (r : Res A) : stable P (lift r).
Proof. intros w H; exact H. Qed.

Lemma stable_read {A} P (f : Instance -> A) : stable P (read f).
Proof. intros w H; exact H. Qed.

Lemma stable_bind {A B} P (m : M A) (f : A -> M B) :
  stable P m -> (forall a, stable P (f a)) -> stable P (bind m f).
Proof.
  intros Hm Hf w H. unfold bind.
  specialize (Hm w H). destruct (m w) as [[a|e] w']; simpl in *.
  - apply Hf, Hm.
  - exact Hm.
Qed.

Lemma stable_getattr {A} P name (f : Instance -> attr A) :
  stable P (getattr name f).
Proof. intros w H. unfold getattr. destruct (f (self w)); exact H. Qed.

Lemma stable_dot {A} P name (o : option A) : stable P (dot name o).
Proof. destruct o; intros w H; exact H. Qed.

Lemma stable_not_none {A} P (o : option A) : stable P (not_none o).
Proof. destruct o; intros w H; exact H. Qed.

Lemma stable_subscript {A} P (l : list A) i : stable P (subscript l i).
Proof. unfold subscript. destruct (nth_error l i); intros w H; exact H. Qed.

Lemma stable_column {A} P (l : list A) i : stable P (column l i).
Proof.
  unfold column. destruct (0 <=? i)%Z; [apply stable_subscript|].
  destruct (_ <=? i)%Z; [apply stable_subscript|apply stable_raise].
Qed.

Lemma stable_deref_facet P l : stable P (deref_facet l).
Proof.
  intros w H. unfold deref_facet.
  destruct (nth_error _ l); exact H.
Qed.

Lemma stable_deref_ensemble P l : stable P (deref_ensemble l).
Proof.
  intros w H. unfold deref_ensemble.
  destruct (nth_error _ l); exact H.
Qed.

Lemma stable_for_each {A B} P (xs : list A) (body : A -> M B) :
  (forall x, stable P (body x)) -> stable P (for_each xs body).
Proof.
  intros Hb. induction xs as [|x xs IH]; simpl.
  - apply stable_ret.
  - apply stable_bind; [apply Hb|]. intros b.
    apply stable_bind; [apply IH|]. intros bs. apply stable_ret.
Qed.

Lemma stable_for_do {A} P (xs : list A) (body : A -> M unit) :
  (forall x, stable P (body x)) -> stable P (for_do xs body).
Proof.
  intros Hb. induction xs as [|x xs IH]; simpl.
  - apply stable_ret.
  - apply stable_bind; [apply Hb|]. intros _. apply IH.
Qed.


Lemma stable_with_heap {A} Q (f : Heap -> Res A * Heap) :
  stable (on_self Q) (with_heap f).
Proof.
  intros w H. unfold with_heap. destruct (f (heap w)); exact H.
Qed.

Lemma stable_warn Q m : stable (on_self Q) (warn m).
Proof. intros w H; exact H. Qed.

Lemma stable_error_and_raise {A} Q cls m :
  stable (on_self Q) (error_and_raise (A:=A) cls m).
Proof. intros w H; exact H. Qed.

Lemma stable_update Q (f : Instance -> Instance) :
  (forall s, Q s -> Q (f s)) -> stable (on_self Q) (update f).
Proof. intros Hf w H. apply Hf, H. Qed.

Lemma stable_copy_facet Q l : stable (on_self Q) (copy_facet l).
Proof.
  apply stable_bind; [apply stable_deref_facet|].
  intros d w H; exact H.
Qed.

Lemma stable_copy_ensemble Q l : stable (on_self Q) (copy_ensemble l).
Proof.
  apply stable_bind; [apply stable_deref_ensemble|].
  intros d w H; exact H.
Qed.

End Stability.

(** Walks through a method body, leaving the attribute assignments that
    are not settled by computation. *)
Ltac stable_step :=
  first
    [ apply stable_ret | apply stable_raise | apply stable_lift
    | apply stable_read | apply stable_getattr | apply stable_dot
    | apply stable_not_none | apply stable_subscript | apply stable_column
    | apply stable_deref_facet | apply stable_deref_ensemble
    | apply stable_with_heap | apply stable_warn
    | apply stable_error_and_raise
    | apply stable_copy_facet | apply stable_copy_ensemble
    | apply stable_bind; [ | intros ? ]
    | apply stable_for_each; intros ?
    | apply stable_for_do; intros ?
    | apply stable_update; intros ? ?; simpl; solve [ auto | tauto ]
    | match goal with
      | |- stable _ (match ?x with _ => _ end) => destruct x
      | |- stable _ (if ?b then _ else _) => destruct b
      end ].

Ltac stable_walk := repeat stable_step.

(** Opens the methods that a method calls. *)
Ltac open_methods :=
  repeat first
    [ progress unfold find_blobs
    | progress unfold _calculate_mask
    | progress unfold store_geometry
    | progress unfold _process_optic_singlefacet_geometry
    | progress unfold _process_optic_multifacet_geometry
    | progress unfold multifacet_kwargs
    | progress unfold build_and_solve
    | progress unfold solve_facet
    | progress unfold _calculate_facet_pointing
    | progress unfold facet_transform
    | progress unfold reference_pointing
    | progress unfold facet_ensemble_data ].

Ltac stable_methods := repeat first [ stable_step | progress open_methods ].

Section StableMethods.
Context {Num : Numbers} {Rec : Records} {Col : Collaborators}.
Local Open Scope py_scope.

(** What [process_single_facet_optic] does once its check has passed and
    [optic_type] and [num_facets] are assigned. *)
Lemma single_keeps_header c surf pt_known xy_known :
  stable (on_self (run_header Single 1))
    (update (set_data_facet_def (Has [c])) ;;
     update (set_data_surfaces (Has [surf])) ;;
     b <- find_blobs pt_known [xy_known] ;;
     update (set_blob_index (Has b)) ;;
     mask_raw <- _calculate_mask ;;
     b <- getattr "blob_index" blob_index ;;
     b <- not_none b ;;
     kwargs <- _process_optic_singlefacet_geometry b mask_raw ;;
     solver <- build_and_solve kwargs ;;
     update (set_slope_solver (Has [solver])) ;;
     d <- lift (get_data solver) ;;
     update (set_data_calculation_facet (Has [d]))).
Proof. unfold run_header. stable_methods. Qed.

Lemma header_facet_pointing ot n reference :
  stable (on_self (run_header ot n)) (_calculate_facet_pointing reference).
Proof. unfold run_header. stable_methods. Qed.

Lemma multi_keeps_header n surfaces e pts_known xys_known cs :
  stable (on_self (run_header Multi n))
    (update (set_data_facet_def (Has cs)) ;;
     ce <- copy_ensemble e ;;
     update (set_data_ensemble_def (Has ce)) ;;
     update (set_data_surfaces (Has surfaces)) ;;
     b <- find_blobs pts_known xys_known ;;
     update (set_blob_index (Has b)) ;;
     mask_raw <- _calculate_mask ;;
     b <- getattr "blob_index" blob_index ;;
     b <- not_none b ;;
     kwargs_list <- _process_optic_multifacet_geometry b mask_raw ;;
     update (set_slope_solver (Has [])) ;;
     update (set_data_calculation_facet (Has [])) ;;
     for_do kwargs_list solve_facet ;;
     _calculate_facet_pointing (RefStr "average")).
Proof.
  unfold run_header.
  repeat first [ apply header_facet_pointing | stable_step
               | progress open_methods ].
Qed.

(** A call of [process_single_facet_optic] whose check fires. *)
Lemma single_check_fires w d surf (pt_known : list V2) xy_known :
  length pt_known <> 1 ->
  process_single_facet_optic d surf pt_known xy_known w
  = (Raise (ValueError (MsgOnlyOnePtKnown (length pt_known))),
     add_log ERROR (MsgOnlyOnePtKnown (length pt_known)) w).
Proof.
  intros H. unfold process_single_facet_optic, bind.
  destruct (Nat.eqb_spec (length pt_known) 1) as [E|E]; [contradiction|].
  reflexivity.
Qed.

(** A call of [process_single_facet_optic] whose check passes. *)
Lemma single_past_check w d surf (pt_known : list V2) xy_known :
  length pt_known = 1 ->
  run_header Single 1
    (self (snd (process_single_facet_optic d surf pt_known xy_known w))).
Proof.
  intros H. unfold process_single_facet_optic.
  rewrite H. simpl negb. cbv iota.
  unfold bind at 1. unfold ret at 1.
  unfold bind at 1. unfold update at 1.
  unfold bind at 1. unfold update at 1.
  unfold bind at 1.
  match goal with
  | |- context [copy_facet d ?w0] =>
      pose proof (stable_copy_facet (run_header Single 1) d w0) as Hc;
      destruct (copy_facet d w0) as [[c|e] w1]
  end.
  - apply (single_keeps_header c surf pt_known xy_known w1).
    apply Hc. split; reflexivity.
  - apply Hc. split; reflexivity.
Qed.

Lemma multi_check_fires w fds surfaces e (pts_known : list V2)
  (xys_known : list (Z * Z)) :
  multi_check_fires_on (length fds) (length surfaces) (length pts_known)
                       (length xys_known) = true ->
  process_multi_facet_optic fds surfaces e pts_known xys_known w
  = (Raise (ValueError (MsgLengthMismatch (length fds) (length surfaces)
                                          (length pts_known) (length xys_known))),
     add_log ERROR (MsgLengthMismatch (length fds) (length surfaces)
                                      (length pts_known) (length xys_known)) w).
Proof.
  unfold multi_check_fires_on. intros H.
  unfold process_multi_facet_optic, bind. rewrite H. reflexivity.
Qed.

Lemma multi_past_check w fds surfaces e (pts_known : list V2)
  (xys_known : list (Z * Z)) :
  multi_check_fires_on (length fds) (length surfaces) (length pts_known)
                       (length xys_known) = false ->
  run_header Multi (length fds)
    (self (snd (process_multi_facet_optic fds surfaces e pts_known xys_known w))).
Proof.
  unfold multi_check_fires_on. intros H.
  unfold process_multi_facet_optic.
  rewrite H.
  unfold bind at 1. unfold ret at 1.
  unfold bind at 1. unfold update at 1.
  unfold bind at 1. unfold update at 1.
  unfold bind at 1.
  match goal with
  | |- context [for_each fds copy_facet ?w0] =>
      assert (Hc : stable (on_self (run_header Multi (length fds)))
                     (for_each fds copy_facet))
        by (apply stable_for_each; intros; apply stable_copy_facet);
      specialize (Hc w0);
      destruct (for_each fds copy_facet w0) as [[cs|ex] w1]
  end.
  - apply (multi_keeps_header (length fds) surfaces e pts_known xys_known cs w1).
    apply Hc. split; reflexivity.
  - apply Hc. split; reflexivity.
Qed.

End StableMethods.

(* ================================================================== *)
(** * Runs that return *)
(* ================================================================== *)

Section Inversion.
Context {Num : Numbers} {Rec : Records} {Col : Collaborators}.

Lemma bind_ok {A B} (m : M A) (f : A -> M B) w b w' :
  bind m f w = (Ok b, w') ->
  exists a w1, m w = (Ok a, w1) /\ f a w1 = (Ok b, w').
Proof.
  unfold bind. destruct (m w) as [[a|e] w1]; intros H.
  - exists a, w1. split; [reflexivity|exact H].
  - discriminate H.
Qed.

Lemma ret_ok {A} (a b : A) w w' :
  ret a w = (Ok b, w') -> b = a /\ w' = w.
Proof. unfold ret. intros H. inversion H. split; reflexivity. Qed.

Lemma lift_ok {A} (r : Res A) (b : A) w w' :
  lift r w = (Ok b, w') -> r = Ok b /\ w' = w.
Proof. unfold lift. intros H. inversion H. split; reflexivity. Qed.

Lemma read_ok {A} (f : Instance -> A) (b : A) w w' :
  read f w = (Ok b, w') -> b = f (self w) /\ w' = w.
Proof. unfold read. intros H. inversion H. split; reflexivity. Qed.

Lemma update_ok (f : Instance -> Instance) u w w' :
  update f w = (Ok u, w') -> w' = set_self (f (self w)) w.
Proof. unfold update. intros H. inversion H. reflexivity. Qed.

Lemma getattr_ok {A} name (f : Instance -> attr A) (o : option A) w w' :
  getattr name f w = (Ok o, w') ->
  w' = w /\ f (self w) <> Missing /\ attr_value (f (self w)) = o.
Proof.
  unfold getattr. destruct (f (self w)); intros H; inversion H;
    repeat split; discriminate.
Qed.

Lemma dot_ok {A} name (o : option A) (a : A) w w' :
  dot name o w = (Ok a, w') -> o = Some a /\ w' = w.
Proof.
  destruct o; unfold dot, ret, raise; intros H; inversion H.
  split; reflexivity.
Qed.

Lemma not_none_ok {A} (o : option A) (a : A) w w' :
  not_none o w = (Ok a, w') -> o = Some a /\ w' = w.
Proof.
  destruct o; unfold not_none, ret, raise; intros H; inversion H.
  split; reflexivity.
Qed.

Lemma subscript_ok {A} (l : list A) i (a : A) w w' :
  subscript l i w = (Ok a, w') -> nth_error l i = Some a /\ w' = w.
Proof.
  unfold subscript. destruct (nth_error l i); unfold ret, raise;
    intros H; inversion H. split; reflexivity.
Qed.

Lemma deref_ensemble_ok l (e : DefinitionEnsemble) w w' :
  deref_ensemble l w = (Ok e, w') ->
  nth_error (ensemble_objs (heap w)) l = Some e /\ w' = w.
Proof.
  unfold deref_ensemble. destruct (nth_error _ l); intros H; inversion H.
  split; reflexivity.
Qed.

Lemma deref_facet_ok l (d : DefinitionFacet) w w' :
  deref_facet l w = (Ok d, w') ->
  nth_error (facet_objs (heap w)) l = Some d /\ w' = w.
Proof.
  unfold deref_facet. destruct (nth_error _ l); intros H; inversion H.
  split; reflexivity.
Qed.

Lemma error_and_raise_ok {A} cls m (a : A) w w' :
  error_and_raise cls m w = (Ok a, w') -> False.
Proof. unfold error_and_raise. intros H. discriminate H. Qed.

Lemma raise_ok {A} e (a : A) w w' : raise e w = (Ok a, w') -> False.
Proof. unfold raise. intros H. discriminate H. Qed.

Lemma attr_value_has {A} (x : attr A) (a : A) :
  attr_value x = Some a -> x = Has a.
Proof. destruct x; simpl; intros H; inversion H. reflexivity. Qed.

(** A run whose result is known. *)
Lemma run_returns {A} (m : M A) w (a : A) :
  fst (m w) = Ok a -> m w = (Ok a, snd (m w)).
Proof. destruct (m w) as [r w']. simpl. intros ->. reflexivity. Qed.

End Inversion.

(** Takes apart a hypothesis saying that a sequence of steps returned. *)
Ltac invert_run :=
  repeat match goal with
  | H : bind _ _ _ = (Ok _, _) |- _ =>
      apply bind_ok in H; destruct H as (? & ? & ? & H)
  | H : ret _ _ = (Ok _, _) |- _ =>
      apply ret_ok in H; destruct H as [? ?]; subst
  | H : lift _ _ = (Ok _, _) |- _ =>
      apply lift_ok in H; destruct H as [H ?]; subst
  | H : read _ _ = (Ok _, _) |- _ =>
      apply read_ok in H; destruct H as [? ?]; subst
  | H : update _ _ = (Ok _, _) |- _ =>
      apply update_ok in H; subst
  | H : getattr _ _ _ = (Ok _, _) |- _ =>
      apply getattr_ok in H; destruct H as (? & ? & H); subst
  | H : dot _ _ _ = (Ok _, _) |- _ =>
      apply dot_ok in H; destruct H as [? ?]; subst
  | H : not_none _ _ = (Ok _, _) |- _ =>
      apply not_none_ok in H; destruct H as [? ?]; subst
  | H : subscript _ _ _ = (Ok _, _) |- _ =>
      apply subscript_ok in H; destruct H as [H ?]; subst
  | H : deref_ensemble _ _ = (Ok _, _) |- _ =>
      apply deref_ensemble_ok in H; destruct H as [H ?]; subst
  | H : deref_facet _ _ = (Ok _, _) |- _ =>
      apply deref_facet_ok in H; destruct H as [H ?]; subst
  | H : error_and_raise _ _ _ = (Ok _, _) |- _ =>
      exfalso; exact (error_and_raise_ok _ _ _ _ _ H)
  | H : raise _ _ = (Ok _, _) |- _ =>
      exfalso; exact (raise_ok _ _ _ _ H)
  | H : attr_value _ = Some _ |- _ => apply attr_value_has in H
  end.

(** The same, going into the branches the run may have taken. *)
Ltac invert_run_cases :=
  repeat first
    [ progress invert_run
    | match goal with
      | H : (match ?x with _ => _ end) _ = (Ok _, _) |- _ =>
          destruct x eqn:?
      end ].

(* ================================================================== *)
(** * Input checks and what an aborted call leaves behind *)
(* ================================================================== *)

Section Checks.
Context {Num : Numbers} {Rec : Records} {Col : Collaborators}.


(** C2, as amended: a call that aborts at its own input check leaves every
    attribute of the instance as it was; a call that gets past the check
    keeps, whatever happens later, the [optic_type] and [num_facets] it
    assigned first. *)
Theorem aborted_call_state :
  forall (w : World) (d surf e : loc) (fds surfaces : list loc)
         (pts_known : list V2) (xy_known : Z * Z) (xys_known : list (Z * Z)),
    let r1 := process_single_facet_optic d surf pts_known xy_known w in
    let r2 := process_multi_facet_optic fds surfaces e pts_known xys_known w in
    (if length pts_known =? 1
     then run_header Single 1 (self (snd r1))
     else (exists m, fst r1 = Raise (ValueError m)) /\ self (snd r1) = self w)
    /\
    (if multi_check_fires_on (length fds) (length surfaces)
                             (length pts_known) (length xys_known)
     then (exists m, fst r2 = Raise (ValueError m)) /\ self (snd r2) = self w
     else run_header Multi (length fds) (self (snd r2))).
Proof.
  intros w d surf e fds surfaces pts_known xy_known xys_known r1 r2.
  subst r1 r2. split.
  - destruct (Nat.eqb_spec (length pts_known) 1) as [E|E].
    + apply single_past_check; exact E.
    + rewrite single_check_fires by exact E. split; [eexists|]; reflexivity.
  - destruct (multi_check_fires_on _ _ _ _) eqn:E.
    + rewrite multi_check_fires by exact E. split; [eexists|]; reflexivity.
    + apply multi_past_check; exact E.
Qed.

End Checks.

Section ChecksOnToy.
#[local] Existing Instance Toy.numbers.
#[local] Existing Instance Toy.records.
#[local] Existing Instance Toy.collaborators.
Import Toy.

(** C2, counterexample: with a measurement in which no pixel is lit the
    geometry solver rejects the empty mask; the call aborts with that
    error, and the instance is not what it was before the call:
    [optic_type] has gone from [None] to ['single']. *)
Lemma aborted_call_keeps_partial_state :
  let r := process_single_facet_optic 0%nat 0%nat [pt] xy loaded_dark in
  fst r = Raise (ValueError (MsgCollaborator "empty mask"))
  /\ optic_type (self loaded_dark) = PyNone
  /\ optic_type (self (snd r)) = Has Single
  /\ self (snd r) <> self loaded_dark.
Proof.
  assert (H : optic_type
                (self (snd (process_single_facet_optic 0%nat 0%nat [pt] xy
                              loaded_dark))) = Has Single) by reflexivity.
  cbv zeta. repeat split; try reflexivity.
  intros E. rewrite E in H. discriminate H.
Qed.

(** C1: three facet definitions, two surfaces, three known points and
    three index pairs.  [3 != 2 != 3 != 3] is false in Python, so the check
    does not fire: nothing is logged, the attributes of the run are
    assigned, and the call stops only when the third surface is looked
    up. *)
Theorem mismatched_lengths_pass_the_check :
  let r := process_multi_facet_optic [0; 1; 2]%nat [0; 1]%nat 0%nat
             [pt; pt; pt] [xy; xy; xy] loaded in
  multi_check_fires_on 3 2 3 3 = false
  /\ fst r = Raise IndexError
  /\ log (snd r) = []
  /\ optic_type (self (snd r)) = Has Multi
  /\ num_facets (self (snd r)) = Has 3%nat
  /\ data_surfaces (self (snd r)) = Has [0; 1]%nat.
Proof. cbv zeta. repeat split; reflexivity. Qed.

(** C5: on an instance with two solved facets the reference [-1] is not
    rejected (the call returns), and [-3] ends in an [IndexError]; on a new
    instance, where no slopes were solved, the call ends in an
    [AttributeError].  None of the three is the [ValueError] the method
    announces. *)
Theorem facet_pointing_unchecked_references :
  fst (_calculate_facet_pointing (RefInt (-1)) processed_two) = Ok tt
  /\ fst (_calculate_facet_pointing (RefInt (-3)) processed_two)
     = Raise IndexError
  /\ fst (_calculate_facet_pointing (RefStr "average") fresh)
     = Raise (AttributeError "data_calculation_facet")
  /\ fst (_calculate_facet_pointing (RefInt 2) processed_two)
     = Raise (ValueError (MsgIndexOutOfRange 2 2))
  /\ fst (_calculate_facet_pointing (RefStr "mean") processed_two)
     = Raise (ValueError MsgBadReference).
Proof. repeat split; reflexivity. Qed.

End ChecksOnToy.

(* ================================================================== *)
(** * The mask *)
(* ================================================================== *)

Section MaskFacts.
Context {Num : Numbers} {Rec : Records} {Col : Collaborators}.

(** The pair that [_calculate_mask] builds, pixel by pixel. *)
Lemma stack_with_dark (im : Image) :
  stack_images (image_times im 0) im = dark_and_measured im.
Proof.
  unfold stack_images, image_times, dark_and_measured.
  induction im as [|row im IH]; [reflexivity|].
  cbn [map combine fst snd]. rewrite IH. f_equal.
  clear IH. induction row as [|px row IH]; [reflexivity|].
  cbn [map combine fst snd]. rewrite IH. reflexivity.
Qed.

Lemma constant_dark (dark : pixel) (im : Image) :
  Forall (Forall (fun px => pixel_times px 0 = dark)) im ->
  dark_and_measured im = constant_dark_and_measured dark im.
Proof.
  unfold dark_and_measured, constant_dark_and_measured.
  intros H. apply map_ext_in. intros row Hrow.
  apply map_ext_in. intros px Hpx.
  rewrite Forall_forall in H. specialize (H row Hrow).
  rewrite Forall_forall in H. rewrite (H px Hpx). reflexivity.
Qed.

(** [_calculate_mask], run on a world with a measurement. *)
Lemma calculate_mask_run (w : World) (m : MeasurementSofastFixed) :
  measurement (self w) = Has m ->
  optic_type (self w) <> Missing ->
  _calculate_mask w =
  let pm := mask (params (self w)) in
  match calc_mask_raw (stack_images (image_times (image m) 0) (image m))
          (hist_thresh pm) (filt_width pm) (filt_thresh pm)
          (thresh_active_pixels pm) with
  | Raise e => (Raise e, w)
  | Ok raw =>
      match attr_value (optic_type (self w)) with
      | Some Multi =>
          if keep_largest_area pm
          then (Ok raw,
                set_self
                  (set_params (with_keep_largest_area false (params (self w)))
                              (self w))
                  (add_log WARN MsgKeepLargestArea w))
          else (Ok raw, w)
      | _ => if keep_largest_area pm
             then (keep_largest_mask_area raw, w)
             else (Ok raw, w)
      end
  end.
Proof.
  intros Hm Hot. unfold _calculate_mask, bind, getattr, dot, read, lift, ret.
  repeat (rewrite Hm; cbn iota beta zeta).
  destruct (calc_mask_raw _ _ _ _ _) as [raw|e]; [|reflexivity].
  destruct (optic_type (self w)) as [| |[]] eqn:Eot;
    try contradiction; cbn;
    destruct (keep_largest_area (mask (params (self w)))) eqn:Ek;
    cbn; rewrite ?Ek; reflexivity.
Qed.

(** C6: with [keep_largest_area] switched on, a mask computed during a
    multi-facet run is the raw mask; a warning is logged, the option is
    switched off and nothing else changes; no error comes of it.  During a
    single-facet run the result is what the largest-area filter makes of
    the raw mask. *)
Theorem keep_largest_area_conflict :
  forall (w : World) (m : MeasurementSofastFixed) (raw : Mask),
    measurement (self w) = Has m ->
    keep_largest_area (mask (params (self w))) = true ->
    calc_mask_raw (stack_images (image_times (image m) 0) (image m))
      (hist_thresh (mask (params (self w))))
      (filt_width (mask (params (self w))))
      (filt_thresh (mask (params (self w))))
      (thresh_active_pixels (mask (params (self w)))) = Ok raw ->
    (optic_type (self w) = Has Multi ->
       fst (_calculate_mask w) = Ok raw
       /\ self (snd (_calculate_mask w))
          = set_params (with_keep_largest_area false (params (self w))) (self w)
       /\ keep_largest_area (mask (params (self (snd (_calculate_mask w)))))
          = false
       /\ log (snd (_calculate_mask w)) = log w ++ [(WARN, MsgKeepLargestArea)]
       /\ heap (snd (_calculate_mask w)) = heap w)
    /\
    (optic_type (self w) = Has Single ->
       _calculate_mask w = (keep_largest_mask_area raw, w)).
Proof.
  intros w m raw Hm Hkeep Hraw. split; intros Hot.
  - rewrite (calculate_mask_run w m Hm) by (rewrite Hot; discriminate).
    cbv zeta. rewrite Hraw, Hot, Hkeep. cbn. repeat split.
  - rewrite (calculate_mask_run w m Hm) by (rewrite Hot; discriminate).
    cbv zeta. rewrite Hraw, Hot, Hkeep. reflexivity.
Qed.

(** C10, as amended: the image pair handed to the mask builder is made
    from the measured image alone: per pixel the measured value times zero
    and the measured value, in this order; where every pixel times zero
    gives one value (zero, for integers and finite floats) the dark channel
    is that value throughout.  The mask that [_calculate_mask] returns is a
    function of the measured image, the mask parameters and the optic
    type: no other image enters. *)
Theorem mask_from_image_parameters_and_optic_type :
  forall (w : World) (m : MeasurementSofastFixed),
    measurement (self w) = Has m ->
    optic_type (self w) <> Missing ->
    stack_images (image_times (image m) 0) (image m)
    = dark_and_measured (image m)
    /\ (forall dark : pixel,
          Forall (Forall (fun px => pixel_times px 0 = dark)) (image m) ->
          stack_images (image_times (image m) 0) (image m)
          = constant_dark_and_measured dark (image m))
    /\ fst (_calculate_mask w)
       = mask_from_image (image m) (mask (params (self w)))
                         (attr_value (optic_type (self w))).
Proof.
  intros w m Hm Hot.
  split; [apply stack_with_dark|].
  split; [intros dark H; rewrite stack_with_dark; apply constant_dark, H|].
  rewrite (calculate_mask_run w m Hm Hot). cbv zeta.
  unfold mask_from_image. rewrite stack_with_dark.
  destruct (calc_mask_raw _ _ _ _ _) as [raw|e]; [|reflexivity].
  destruct (attr_value (optic_type (self w))) as [[]|];
    destruct (keep_largest_area (mask (params (self w)))); reflexivity.
Qed.

End MaskFacts.

Section MaskOnToy.
#[local] Existing Instance Toy.numbers.
#[local] Existing Instance Toy.records.
#[local] Existing Instance Toy.collaborators.
Import Toy.
Import PrimFloat.
Local Open Scope float_scope.

Lemma keep_largest_area_conflict_witness :
  (fst (_calculate_mask (keeping Multi loaded))
   = Ok [[true; true]; [false; true]]
   /\ keep_largest_area
        (mask (params (self (snd (_calculate_mask (keeping Multi loaded))))))
      = false
   /\ log (snd (_calculate_mask (keeping Multi loaded)))
      = [(WARN, MsgKeepLargestArea)])
  /\ _calculate_mask (keeping Single loaded)
     = (Ok [[true; true]], keeping Single loaded).
Proof.
  split.
  - destruct (keep_largest_area_conflict (keeping Multi loaded) measured
                [[true; true]; [false; true]]) as [H _];
      [reflexivity | reflexivity | reflexivity |].
    destruct H as (H1 & _ & H3 & H4 & _); [reflexivity|].
    exact (conj H1 (conj H3 H4)).
  - destruct (keep_largest_area_conflict (keeping Single loaded) measured
                [[true; true]; [false; true]]) as [_ H];
      [reflexivity | reflexivity | reflexivity |].
    apply H. reflexivity.
Defined.

Lemma mask_from_image_parameters_and_optic_type_witness :
  stack_images (image_times [[5; 7]; [0; 9]] 0) [[5; 7]; [0; 9]]
  = [[[0; 5]; [0; 7]]; [[0; 0]; [0; 9]]]
  /\ fst (_calculate_mask loaded) = Ok [[true; true]; [false; true]].
Proof.
  destruct (mask_from_image_parameters_and_optic_type loaded measured)
    as (_ & H1 & H2); [reflexivity | simpl; discriminate |].
  split.
  - apply (H1 0).
    repeat (apply Forall_cons || apply Forall_nil); reflexivity.
  - exact H2.
Defined.

(** C10, counterexample: the same image and the same mask parameters give
    one mask in a multi-facet run and another in a single-facet run, so
    the mask is not a function of the image and the mask parameters only;
    and the dark channel of an image with an infinite pixel holds nan
    there, not zero. *)
Lemma mask_depends_on_optic_type :
  measurement (self (keeping Multi loaded))
  = measurement (self (keeping Single loaded))
  /\ mask (params (self (keeping Multi loaded)))
     = mask (params (self (keeping Single loaded)))
  /\ fst (_calculate_mask (keeping Multi loaded))
     = Ok [[true; true]; [false; true]]
  /\ fst (_calculate_mask (keeping Single loaded)) = Ok [[true; true]]
  /\ fst (_calculate_mask (keeping Multi loaded))
     <> fst (_calculate_mask (keeping Single loaded))
  /\ image_times (image saturated_measured) 0 = [[0; nan]].
Proof.
  repeat split; try reflexivity.
  intros H. discriminate H.
Qed.

End MaskOnToy.

(* ================================================================== *)
(** * Facet pointing *)
(* ================================================================== *)

Section PointingRun.
Context {Num : Numbers} {Rec : Records} {Col : Collaborators}.

Lemma keep_some_map_Some {A} (l : list A) : keep_some (map Some l) = l.
Proof.
  unfold keep_some. induction l as [|a l IH]; simpl; [reflexivity|].
  f_equal. exact IH.
Qed.

(** The first loop reads the world and leaves it alone. *)
Lemma facet_transform_ok idx w tv w' ed e dcf :
  facet_transform idx w = (Ok tv, w') ->
  data_ensemble_def (self w) = Has ed ->
  nth_error (ensemble_objs (heap w)) ed = Some e ->
  data_calculation_facet (self w) = Has dcf ->
  w' = w
  /\ transform_before e dcf idx = Some (fst tv)
  /\ snd tv = pointing (fst tv).
Proof.
  intros H Hed He Hdcf. unfold facet_transform in H.
  invert_run.
  repeat match goal with
  | H : data_ensemble_def (self _) = Has _ |- _ =>
      rewrite Hed in H; injection H as <-
  | H : data_calculation_facet (self _) = Has _ |- _ =>
      rewrite Hdcf in H; injection H as <-
  end.
  repeat match goal with
  | H : nth_error (ensemble_objs (heap _)) ed = Some _ |- _ =>
      rewrite He in H; injection H as <-
  end.
  split; [reflexivity|]. unfold transform_before, pointing. simpl.
  repeat match goal with
  | H : nth_error _ idx = Some _ |- _ => rewrite H; clear H
  end.
  split; reflexivity.
Qed.

Lemma first_loop_ok k : forall a w tvs w' ed e dcf,
  for_each (seq a k) facet_transform w = (Ok tvs, w') ->
  data_ensemble_def (self w) = Has ed ->
  nth_error (ensemble_objs (heap w)) ed = Some e ->
  data_calculation_facet (self w) = Has dcf ->
  w' = w
  /\ map (transform_before e dcf) (seq a k) = map Some (map fst tvs)
  /\ map snd tvs = map pointing (map fst tvs).
Proof.
  induction k as [|k IH]; intros a w tvs w' ed e dcf H Hed He Hdcf.
  - simpl in H. invert_run. repeat split.
  - simpl in H. invert_run.
    match goal with
    | H : facet_transform _ _ = _ |- _ =>
        destruct (facet_transform_ok _ _ _ _ _ _ _ H Hed He Hdcf)
          as (-> & Ht & Hp)
    end.
    match goal with
    | H : for_each _ _ _ = _ |- _ =>
        destruct (IH _ _ _ _ _ _ _ H Hed He Hdcf) as (-> & Hts & Hps)
    end.
    split; [reflexivity|]. simpl. rewrite Ht, Hts, Hp, Hps.
    split; reflexivity.
Qed.

(** The second loop appends one record per facet. *)
Lemma facet_ensemble_data_ok ts idx w u w' dcf acc :
  facet_ensemble_data ts idx w = (Ok u, w') ->
  data_calculation_facet (self w) = Has dcf ->
  data_calculation_ensemble (self w) = Has acc ->
  exists rec,
    record_at ts dcf idx = Some rec
    /\ w' = set_self
              (set_data_calculation_ensemble (Has (acc ++ [rec])) (self w)) w.
Proof.
  intros H Hdcf Hacc. unfold facet_ensemble_data in H.
  invert_run.
  repeat match goal with
  | H : data_calculation_facet (self _) = Has _ |- _ =>
      rewrite Hdcf in H; injection H as <-
  | H : data_calculation_ensemble (self _) = Has _ |- _ =>
      rewrite Hacc in H; injection H as <-
  end.
  unfold record_at.
  repeat match goal with
  | H1 : nth_error ?l idx = Some ?a, H2 : nth_error ?l idx = Some ?b |- _ =>
      rewrite H1 in H2; injection H2 as <-
  end.
  repeat match goal with
  | H : nth_error _ idx = Some _ |- _ => rewrite H; clear H
  end.
  eexists. split; reflexivity.
Qed.

Lemma second_loop_ok ts k : forall a w u w' dcf acc,
  for_do (seq a k) (facet_ensemble_data ts) w = (Ok u, w') ->
  data_calculation_facet (self w) = Has dcf ->
  data_calculation_ensemble (self w) = Has acc ->
  exists recs,
    map (record_at ts dcf) (seq a k) = map Some recs
    /\ w' = set_self
              (set_data_calculation_ensemble (Has (acc ++ recs)) (self w)) w.
Proof.
  induction k as [|k IH]; intros a w u w' dcf acc H Hdcf Hacc.
  - simpl in H. invert_run. exists []. split; [reflexivity|].
    rewrite app_nil_r. destruct w as [s h l]. simpl in *.
    rewrite <- Hacc. destruct s. reflexivity.
  - simpl in H. invert_run.
    match goal with
    | H : facet_ensemble_data _ _ _ = _ |- _ =>
        destruct (facet_ensemble_data_ok _ _ _ _ _ _ _ H Hdcf Hacc)
          as (rec & Hrec & ->)
    end.
    match goal with
    | H : for_do _ _ _ = _ |- _ =>
        destruct (IH _ _ _ _ dcf (acc ++ [rec]) H) as (recs & Hrecs & ->);
          [exact Hdcf | reflexivity |]
    end.
    exists (rec :: recs). simpl. rewrite Hrec, Hrecs.
    split; [reflexivity|]. rewrite <- app_assoc. reflexivity.
Qed.

(** The vector that [reference_pointing] returns. *)
Lemma reference_pointing_ok reference ps w v w' :
  reference_pointing reference ps w = (Ok v, w') ->
  v = reference_vector reference ps.
Proof.
  destruct reference as [s|i|]; simpl; intros H.
  - destruct (String.eqb s "average"); invert_run. reflexivity.
  - unfold column in H.
    destruct (0 <=? i)%Z.
    + invert_run. symmetry. apply nth_error_nth. assumption.
    + destruct (_ <=? i)%Z; invert_run.
      symmetry. apply nth_error_nth. assumption.
  - invert_run.
Qed.

Lemma reference_pointing_pure reference ps w v w' :
  reference_pointing reference ps w = (Ok v, w') ->
  w' = w /\ forall w2, reference_pointing reference ps w2 = (Ok v, w2).
Proof.
  destruct reference as [s|i|]; simpl; intros H.
  - destruct (String.eqb s "average"); invert_run. split; reflexivity.
  - unfold column in *.
    destruct (0 <=? i)%Z; [|destruct (_ <=? i)%Z]; invert_run;
      (split; [reflexivity|]); intros w2; unfold subscript; rewrite H;
      reflexivity.
  - invert_run.
Qed.

Lemma facet_transform_world idx w tv w' :
  facet_transform idx w = (Ok tv, w') -> w' = w.
Proof. unfold facet_transform. intros H. invert_run. reflexivity. Qed.

Lemma first_loop_world k : forall a w tvs w',
  for_each (seq a k) facet_transform w = (Ok tvs, w') -> w' = w.
Proof.
  induction k as [|k IH]; intros a w tvs w' H; simpl in H; invert_run.
  - reflexivity.
  - match goal with
    | H : facet_transform _ _ = _ |- _ =>
        apply facet_transform_world in H; subst
    end.
    eapply IH; eassumption.
Qed.

(** A call of [_calculate_facet_pointing] that returns: the first loop gave
    the transforms, one rotation [R] came back from [align_to] for the
    reference vector, and the records of the facets were built from the
    transforms [from_R R * t]. *)
Lemma facet_pointing_shape reference w u w' n dcf :
  _calculate_facet_pointing reference w = (Ok u, w') ->
  num_facets (self w) = Has n ->
  data_calculation_facet (self w) = Has dcf ->
  let w0 := set_self (set_data_calculation_ensemble (Has []) (self w)) w in
  exists tvs v R recs,
    for_each (seq 0 n) facet_transform w0 = (Ok tvs, w0)
    /\ reference_pointing reference (map snd tvs) w0 = (Ok v, w0)
    /\ align_to v ez = Ok R
    /\ map (record_at (map (trans_mul (from_R R)) (map fst tvs)) dcf) (seq 0 n)
       = map Some recs
    /\ w' = set_self (set_data_calculation_ensemble (Has recs) (self w)) w.
Proof.
  intros H Hn Hdcf w0. unfold _calculate_facet_pointing in H.
  invert_run_cases.
  all: repeat match goal with
       | H : num_facets (self _) = Has _ |- _ =>
           simpl in H; rewrite Hn in H; injection H as <-
       end.
  all: match goal with
       | H : for_each _ facet_transform _ = (Ok ?tvs, _) |- _ =>
           pose proof (first_loop_world _ _ _ _ _ H) as ->
       end.
  all: match goal with
       | H : reference_pointing _ _ _ = (Ok _, _) |- _ =>
           pose proof (proj1 (reference_pointing_pure _ _ _ _ _ H)) as ->
       end.
  all: repeat match goal with
       | H : num_facets (self _) = Has _ |- _ =>
           simpl in H; rewrite Hn in H; injection H as <-
       end.
  all: match goal with
       | H : for_do _ _ ?w0 = _ |- _ =>
           destruct (second_loop_ok _ _ _ _ _ _ dcf [] H)
             as (recs & Hrecs & ->); [exact Hdcf | reflexivity |]
       end.
  all: match goal with
       | L : for_each _ _ _ = (Ok ?tvs, _), A : align_to ?v _ = Ok ?R |- _ =>
           exists tvs, v, R, recs
       end.
  all: repeat split; assumption.
Qed.

Lemma facet_pointing_ok reference w u w' n ed e dcf :
  _calculate_facet_pointing reference w = (Ok u, w') ->
  num_facets (self w) = Has n ->
  data_ensemble_def (self w) = Has ed ->
  nth_error (ensemble_objs (heap w)) ed = Some e ->
  data_calculation_facet (self w) = Has dcf ->
  exists v R recs,
    map (transform_before e dcf) (seq 0 n)
    = map Some (transforms_before e dcf n)
    /\ fst (reference_pointing reference
              (map pointing (transforms_before e dcf n)) w) = Ok v
    /\ align_to v ez = Ok R
    /\ map (record_at (map (trans_mul (from_R R)) (transforms_before e dcf n))
                      dcf) (seq 0 n)
       = map Some recs
    /\ w' = set_self (set_data_calculation_ensemble (Has recs) (self w)) w.
Proof.
  intros H Hn Hed He Hdcf.
  destruct (facet_pointing_shape _ _ _ _ _ _ H Hn Hdcf)
    as (tvs & v & R & recs & Hloop & Hv & Halign & Hrecs & ->).
  destruct (first_loop_ok _ _ _ _ _ ed e dcf Hloop) as (_ & Hts & Hps);
    [exact Hed | exact He | exact Hdcf |].
  assert (Hbefore : transforms_before e dcf n = map fst tvs)
    by (unfold transforms_before; rewrite Hts; apply keep_some_map_Some).
  exists v, R, recs. rewrite Hbefore, <- Hps.
  rewrite (proj2 (reference_pointing_pure _ _ _ _ _ Hv) w).
  repeat split; assumption.
Qed.

(** Reading one entry off a list that was built index by index. *)
Lemma built_by_index {A} (f : nat -> option A) n (l : list A) :
  map f (seq 0 n) = map Some l ->
  length l = n
  /\ forall idx, idx < n -> nth_error l idx = f idx.
Proof.
  intros H. split.
  - apply (f_equal (@length _)) in H.
    rewrite !length_map, length_seq in H. symmetry. exact H.
  - intros idx Hidx.
    apply (f_equal (fun x => nth_error x idx)) in H.
    rewrite !nth_error_map in H.
    rewrite (nth_error_nth' (seq 0 n) 0) in H by (rewrite length_seq; exact Hidx).
    rewrite seq_nth in H by exact Hidx. simpl in H.
    destruct (nth_error l idx) as [a|]; simpl in H.
    + injection H as H. symmetry. exact H.
    + discriminate H.
Qed.

(** The records built from a list of transforms hold these transforms,
    and as pointing vectors the boresight rotated by their rotations. *)
Lemma records_of_transforms (ts : list TransformXYZ)
  (dcf : list SlopeSolverData) n (recs : list CalculationFacetEnsemble) :
  map (record_at ts dcf) (seq 0 n) = map Some recs ->
  length ts = n ->
  map trans_facet_ensemble recs = ts
  /\ map v_facet_pointing_ensemble recs = map pointing ts.
Proof.
  intros Hrecs Hts.
  destruct (built_by_index _ _ _ Hrecs) as [Hlen Hat].
  assert (H : forall idx,
            option_map trans_facet_ensemble (nth_error recs idx)
            = nth_error ts idx
            /\ option_map v_facet_pointing_ensemble (nth_error recs idx)
               = option_map pointing (nth_error ts idx)).
  { intros idx. destruct (Nat.lt_ge_cases idx n) as [Hidx|Hidx].
    - assert (Hsome : nth_error recs idx <> None)
        by (apply nth_error_Some; rewrite Hlen; exact Hidx).
      rewrite (Hat idx Hidx) in Hsome |- *. unfold record_at in *.
      destruct (nth_error ts idx) as [t|]; [|contradiction].
      destruct (nth_error dcf idx) as [d|]; [|contradiction].
      split; reflexivity.
    - rewrite (proj2 (nth_error_None recs idx)) by lia.
      rewrite (proj2 (nth_error_None ts idx)) by lia.
      split; reflexivity. }
  split; apply nth_error_ext; intros idx; rewrite !nth_error_map;
    apply H.
Qed.

(** In a call of [_calculate_facet_pointing] that returns, [align_to] is
    called once, with the reference vector and the boresight [(0, 0, 1)],
    and gives one rotation [R].  The reference vector is the pointing
    vector, before the correction, of the facet that the reference names,
    or the mean of the pointing vectors of all facets.  The final
    transform of every facet is [from_R R] composed on the left of its
    transform before the correction, and its pointing vector is the
    boresight rotated by the rotation of that final transform. *)
Theorem pointing_correction :
  forall (reference : Reference) (w w' : World) (u : unit) (n : nat)
         (ed : loc) (e : DefinitionEnsemble) (dcf : list SlopeSolverData),
    _calculate_facet_pointing reference w = (Ok u, w') ->
    num_facets (self w) = Has n ->
    data_ensemble_def (self w) = Has ed ->
    nth_error (ensemble_objs (heap w)) ed = Some e ->
    data_calculation_facet (self w) = Has dcf ->
    let ts := transforms_before e dcf n in
    exists R ens,
      align_to (reference_vector reference (map pointing ts)) ez = Ok R
      /\ data_calculation_ensemble (self w') = Has ens
      /\ length ts = n
      /\ map trans_facet_ensemble ens = map (trans_mul (from_R R)) ts
      /\ map v_facet_pointing_ensemble ens
         = map (fun t => pointing (trans_mul (from_R R) t)) ts.
Proof.
  intros reference w w' u n ed e dcf H Hn Hed He Hdcf ts.
  destruct (facet_pointing_ok _ _ _ _ _ _ _ _ H Hn Hed He Hdcf)
    as (v0 & R & recs & Hts & Hv & Halign & Hrecs & ->).
  fold ts in Hts, Hv, Hrecs.
  destruct (built_by_index _ _ _ Hts) as [Hlen_ts _].
  destruct (built_by_index _ _ _ Hrecs) as [Hlen Hat].
  assert (Hv0 : v0 = reference_vector reference (map pointing ts)).
  { destruct (reference_pointing reference (map pointing ts) w)
      as [r w1] eqn:E.
    simpl in Hv. subst r. exact (reference_pointing_ok _ _ _ _ _ E). }
  subst v0.
  destruct (records_of_transforms _ dcf n recs Hrecs) as [Ht Hp].
  { rewrite length_map. exact Hlen_ts. }
  exists R, recs.
  split; [exact Halign|]. split; [reflexivity|]. split; [exact Hlen_ts|].
  split; [exact Ht|]. rewrite Hp, map_map. reflexivity.
Qed.

(** After a call that returns, the ensemble-frame slopes of every
    facet are, pixel by pixel, those of the rotated normal: the unit normal
    along [(-sx, -sy, 1)] is rotated by the rotation of the facet's final
    facet-to-ensemble transform, and the slopes are [-x/z] and [-y/z] of the
    result. *)
Theorem global_slopes_from_rotated_normals :
  forall (reference : Reference) (w w' : World) (u : unit) (n : nat)
         (dcf : list SlopeSolverData),
    _calculate_facet_pointing reference w = (Ok u, w') ->
    num_facets (self w) = Has n ->
    data_calculation_facet (self w) = Has dcf ->
    exists ens,
      data_calculation_ensemble (self w') = Has ens
      /\ length ens = n
      /\ forall idx rec d,
           nth_error ens idx = Some rec ->
           nth_error dcf idx = Some d ->
           length (slopes_ensemble_xy rec) = length (slopes_facet_xy d)
           /\ forall k s,
                nth_error (slopes_facet_xy d) k = Some s ->
                nth_error (slopes_ensemble_xy rec) k
                = Some (global_slope (tR (trans_facet_ensemble rec)) s).
Proof.
  intros reference w w' u n dcf H Hn Hdcf.
  destruct (facet_pointing_shape _ _ _ _ _ _ H Hn Hdcf)
    as (tvs & v & R & recs & _ & _ & _ & Hrecs & ->).
  destruct (built_by_index _ _ _ Hrecs) as [Hlen Hat].
  exists recs. split; [reflexivity|]. split; [exact Hlen|].
  intros idx rec d Hrec Hd.
  assert (Hidx : idx < n).
  { rewrite <- Hlen. apply nth_error_Some. rewrite Hrec. discriminate. }
  rewrite (Hat idx Hidx) in Hrec. unfold record_at in Hrec.
  rewrite Hd in Hrec.
  destruct (nth_error _ idx) as [t|]; [|discriminate].
  injection Hrec as <-. unfold ensemble_record.
  cbn [slopes_ensemble_xy trans_facet_ensemble]. split.
  - unfold normals_to_slopes, rotate_all, slope_normals, Uxyz.
    rewrite !length_map. reflexivity.
  - intros k s Hs.
    unfold normals_to_slopes, rotate_all, slope_normals, Uxyz.
    rewrite !nth_error_map. unfold V2 in *. rewrite Hs. reflexivity.
Qed.

End PointingRun.


Section PointingOnToy.
#[local] Existing Instance Toy.numbers.
#[local] Existing Instance Toy.records.
#[local] Existing Instance Toy.collaborators.
Import Toy.

Import PrimFloat.
Local Open Scope float_scope.

Lemma pointing_correction_witness :
  exists R ens,
    align_to (1, 0, 0) ez = Ok R
    /\ R = mkRot 0 0 (-1) 0 1 0 1 0 0
    /\ data_calculation_ensemble
         (self (snd (_calculate_facet_pointing (RefInt 0) processed_tilted)))
       = Has ens
    /\ map trans_facet_ensemble ens
       = map (trans_mul (from_R R))
           (transforms_before tilted_ensemble_def [flat_pixel; flat_pixel] 2)
    /\ map v_facet_pointing_ensemble ens = [(0, 0, 1); (-1, 0, 0)].
Proof.
  destruct (pointing_correction (RefInt 0) processed_tilted
              (snd (_calculate_facet_pointing (RefInt 0) processed_tilted))
              tt 2%nat 3%nat tilted_ensemble_def [flat_pixel; flat_pixel])
    as (R & ens & HR & Hens & _ & Ht & Hp).
  - apply run_returns. reflexivity.
  - reflexivity.
  - reflexivity.
  - reflexivity.
  - reflexivity.
  - assert (ER : R = mkRot 0 0 (-1) 0 1 0 1 0 0).
    { vm_compute in HR. injection HR as <-. reflexivity. }
    exists R, ens. split; [exact HR|]. split; [exact ER|].
    split; [exact Hens|]. split; [exact Ht|].
    rewrite Hp, ER. reflexivity.
Defined.

Lemma global_slopes_from_rotated_normals_witness :
  exists ens,
    data_calculation_ensemble
      (self (snd (_calculate_facet_pointing (RefInt 0) processed_tilted)))
    = Has ens
    /\ length ens = 2%nat
    /\ forall idx rec d,
         nth_error ens idx = Some rec ->
         nth_error [flat_pixel; flat_pixel] idx = Some d ->
         length (slopes_ensemble_xy rec) = length (slopes_facet_xy d)
         /\ forall k s,
              nth_error (slopes_facet_xy d) k = Some s ->
              nth_error (slopes_ensemble_xy rec) k
              = Some (global_slope (tR (trans_facet_ensemble rec)) s).
Proof.
  apply (global_slopes_from_rotated_normals (RefInt 0) processed_tilted
           (snd (_calculate_facet_pointing (RefInt 0) processed_tilted)) tt
           2%nat [flat_pixel; flat_pixel]).
  - apply run_returns. reflexivity.
  - reflexivity.
  - reflexivity.
Defined.

End PointingOnToy.

(* ================================================================== *)
(** * Blob finding and measurement loading *)
(* ================================================================== *)

Section BlobFacts.
Context {Num : Numbers} {Rec : Records} {Col : Collaborators}.

(** [find_blobs] returns the index and stores nothing: the instance, the
    shared objects and the log are as before, whether it returns or
    raises. *)
Theorem find_blobs_changes_nothing :
  forall (pts_known : list V2) (xys_known : list (Z * Z)) (w : World),
    snd (find_blobs pts_known xys_known w) = w.
Proof.
  intros pts_known xys_known w.
  assert (H : stable (fun w' => w' = w) (find_blobs pts_known xys_known))
    by (unfold find_blobs; stable_walk).
  apply H. reflexivity.
Qed.

(** [zip] stops at the shorter of the two lists: known points or index
    pairs beyond the common length play no part. *)
Theorem find_blobs_ignores_unpaired_known_points :
  forall (pts_known : list V2) (xys_known : list (Z * Z)) (w : World),
    let k := Nat.min (length pts_known) (length xys_known) in
    find_blobs pts_known xys_known w
    = find_blobs (firstn k pts_known) (firstn k xys_known) w.
Proof.
  intros pts_known xys_known w k. unfold find_blobs.
  rewrite <- combine_firstn.
  replace (firstn k (combine pts_known xys_known))
    with (combine pts_known xys_known); [reflexivity|].
  symmetry. apply firstn_all2. rewrite length_combine. subst k. lia.
Qed.

(** Without a loaded measurement [find_blobs] ends in an [AttributeError]
    before any collaborator is called. *)
Lemma find_blobs_without_measurement pts_known xys_known (w : World) :
  measurement (self w) = Missing ->
  find_blobs pts_known xys_known w = (Raise (AttributeError "measurement"), w).
Proof.
  intros H. unfold find_blobs, bind, getattr. rewrite H. reflexivity.
Qed.

(** [process_single_facet_optic] before [load_measurement_data]: the call
    gets past its check, assigns the attributes of the run and the copy of
    the facet definition, and then ends in an [AttributeError] when the
    blobs are to be found. *)
Theorem process_single_before_loading :
  forall (w : World) (d surf : loc) (pt_known : list V2) (xy_known : Z * Z)
         (fd : DefinitionFacet),
    measurement (self w) = Missing ->
    length pt_known = 1 ->
    nth_error (facet_objs (heap w)) d = Some fd ->
    let r := process_single_facet_optic d surf pt_known xy_known w in
    fst r = Raise (AttributeError "measurement")
    /\ optic_type (self (snd r)) = Has Single
    /\ num_facets (self (snd r)) = Has 1
    /\ data_facet_def (self (snd r)) = Has [length (facet_objs (heap w))]
    /\ data_surfaces (self (snd r)) = Has [surf]
    /\ blob_index (self (snd r)) = blob_index (self w).
Proof.
  intros w d surf pt_known xy_known fd Hm Hlen Hfd r.
  assert (E : r = (Raise (AttributeError "measurement"),
                   set_self
                     (set_data_surfaces (Has [surf])
                        (set_data_facet_def (Has [length (facet_objs (heap w))])
                           (set_num_facets (Has 1)
                              (set_optic_type (Has Single) (self w)))))
                     (set_heap (alloc_facet fd (heap w)) w))).
  { subst r. unfold process_single_facet_optic. rewrite Hlen.
    unfold bind at 1. cbn [negb Nat.eqb ret].
    unfold bind at 1. unfold update at 1.
    unfold bind at 1. unfold update at 1.
    unfold bind at 1. unfold copy_facet at 1. unfold bind at 1.
    unfold deref_facet at 1. cbn [heap set_self]. rewrite Hfd.
    unfold bind at 1. unfold update at 1.
    unfold bind at 1. unfold update at 1.
    unfold bind at 1.
    rewrite find_blobs_without_measurement by exact Hm.
    reflexivity. }
  rewrite E. repeat split.
Qed.

End BlobFacts.

(* ================================================================== *)
(** * The optic handed out *)
(* ================================================================== *)

Section AgreeRules.
Context {Num : Numbers} {Rec : Records} {Col : Collaborators}.

Lemma agree_ret {A} R (a : A) : agree R (ret a).
Proof. intros w1 w2 H. split; [reflexivity|exact H]. Qed.

Lemma agree_raise {A} R e : agree R (raise (A:=A) e).
Proof. intros w1 w2 H. split; [reflexivity|exact H]. Qed.

Lemma agree_bind {A B} R (m : M A) (f : A -> M B) :
  agree R m -> (forall a, agree R (f a)) -> agree R (bind m f).
Proof.
  intros Hm Hf w1 w2 H. unfold bind.
  destruct (Hm w1 w2 H) as [E HR].
  destruct (m w1) as [[a1|e1] w1'], (m w2) as [[a2|e2] w2']; simpl in *;
    try discriminate E.
  - injection E as <-. apply Hf. exact HR.
  - injection E as <-. split; [reflexivity|exact HR].
Qed.

Lemma agree_getattr {A} (R : World -> World -> Prop) name
  (f : Instance -> attr A) :
  (forall w1 w2, R w1 w2 -> f (self w1) = f (self w2)) ->
  agree R (getattr name f).
Proof.
  intros Hf w1 w2 H. unfold getattr. rewrite (Hf w1 w2 H).
  destruct (f (self w2)); split; try reflexivity; exact H.
Qed.

Lemma agree_not_none {A} R (o : option A) : agree R (not_none o).
Proof. destruct o; [apply agree_ret|apply agree_raise]. Qed.

Lemma agree_subscript {A} R (l : list A) i : agree R (subscript l i).
Proof.
  unfold subscript. destruct (nth_error l i);
    [apply agree_ret|apply agree_raise].
Qed.

Lemma agree_deref_facet (R : World -> World -> Prop) l :
  (forall w1 w2, R w1 w2 -> facet_objs (heap w1) = facet_objs (heap w2)) ->
  agree R (deref_facet l).
Proof.
  intros Hh w1 w2 H. unfold deref_facet. rewrite (Hh w1 w2 H).
  destruct (nth_error _ l); split; try reflexivity; exact H.
Qed.

Lemma agree_for_each {A B} R (xs : list A) (body : A -> M B) :
  (forall x, agree R (body x)) -> agree R (for_each xs body).
Proof.
  intros Hb. induction xs as [|x xs IH]; simpl.
  - apply agree_ret.
  - apply agree_bind; [apply Hb|]. intros b.
    apply agree_bind; [apply IH|]. intros bs. apply agree_ret.
Qed.

End AgreeRules.

Ltac agree_step :=
  first
    [ apply agree_ret | apply agree_raise
    | apply agree_not_none | apply agree_subscript
    | apply agree_getattr; intros ? ? (? & ? & ? & ? & ? & ?); assumption
    | apply agree_deref_facet; intros ? ? (? & ? & ? & ? & ? & ?); assumption
    | apply agree_bind; [ | intros ? ]
    | apply agree_for_each; intros ?
    | match goal with
      | |- agree _ (match ?x with _ => _ end) => destruct x
      | |- agree _ (if ?b then _ else _) => destruct b
      end ].

Section OpticFacts.
Context {Num : Numbers} {Rec : Records} {Col : Collaborators}.

(** [get_optic] builds the optic and changes nothing. *)
Theorem get_optic_changes_nothing :
  forall (interpolation_type : InterpolationType) (w : World),
    snd (get_optic interpolation_type w) = w.
Proof.
  intros interpolation_type w.
  assert (H : stable (fun w' => w' = w) (get_optic interpolation_type)).
  { unfold get_optic.
    repeat first [ stable_step
                 | progress unfold facet_of, set_slope_rows ]. }
  apply H. reflexivity.
Qed.

Lemma get_optic_agrees interpolation_type :
  agree same_optic_sources (get_optic interpolation_type).
Proof.
  unfold get_optic.
  repeat first [ agree_step
               | progress unfold facet_of, set_slope_rows ].
Qed.

(** The optic is a function of the facet definitions in the store and of
    [num_facets], [optic_type], [data_calculation_facet], [data_facet_def]
    and [data_calculation_ensemble]: two worlds that agree on these give
    the same optic, or the same exception. *)
Theorem get_optic_sources :
  forall (interpolation_type : InterpolationType) (w1 w2 : World),
    same_optic_sources w1 w2 ->
    fst (get_optic interpolation_type w1)
    = fst (get_optic interpolation_type w2).
Proof.
  intros interpolation_type w1 w2 H.
  apply (get_optic_agrees interpolation_type w1 w2 H).
Qed.

(** Loading another measurement, or changing the parameters, does not
    touch the results: [get_optic] goes on returning the optic of the
    measurement that was processed. *)
Theorem get_optic_after_loading :
  forall (interpolation_type : InterpolationType)
         (m : MeasurementSofastFixed) (p : ParamsSofastFixed) (w : World),
    fst (get_optic interpolation_type (snd (load_measurement_data m w)))
    = fst (get_optic interpolation_type w)
    /\ fst (get_optic interpolation_type
              (set_self (set_params p (self w)) w))
       = fst (get_optic interpolation_type w).
Proof.
  intros interpolation_type m p w.
  split; apply get_optic_agrees; repeat split.
Qed.

Lemma facet_of_world interpolation_type idx w :
  snd (facet_of interpolation_type idx w) = w.
Proof.
  assert (H : stable (fun w' => w' = w) (facet_of interpolation_type idx)).
  { repeat first [ stable_step
                 | progress unfold facet_of, set_slope_rows ]. }
  apply H. reflexivity.
Qed.

Lemma facets_loop_world interpolation_type xs w :
  snd (for_each xs (facet_of interpolation_type) w) = w.
Proof.
  assert (H : stable (fun w' => w' = w)
                (for_each xs (facet_of interpolation_type))).
  { apply stable_for_each. intros idx w0 ->. apply facet_of_world. }
  apply H. reflexivity.
Qed.

(** The two ways in which the source turns slopes into normals agree:
    [ones], rows set to the slopes, sign flipped (in [get_optic]) and
    [ones], rows set to [-slopes] (in [_calculate_facet_pointing]). *)
Lemma normals_of_get_optic (slopes : list V2) :
  Uxyz (map (fun c => (- vx c, - vy c, vz c)%num)
            (map (fun s => (fst s, snd s, 1%num)) slopes))
  = slope_normals slopes.
Proof.
  unfold slope_normals. f_equal. rewrite map_map. apply map_ext.
  intros [sx sy]. reflexivity.
Qed.

(** One pass of the loop of [get_optic]. *)
Lemma facet_of_ok interpolation_type idx w ft w' dcf fds :
  facet_of interpolation_type idx w = (Ok ft, w') ->
  data_calculation_facet (self w) = Has dcf ->
  data_facet_def (self w) = Has fds ->
  exists d l fd,
    nth_error dcf idx = Some d
    /\ nth_error fds idx = Some l
    /\ nth_error (facet_objs (heap w)) l = Some fd
    /\ facet_built_from interpolation_type d fd (fst ft).
Proof.
  intros H Hdcf Hfds. unfold facet_of, set_slope_rows in H.
  invert_run_cases.
  all: repeat match goal with
       | H : data_calculation_facet (self _) = Has _ |- _ =>
           rewrite Hdcf in H; injection H as <-
       | H : data_facet_def (self _) = Has _ |- _ =>
           rewrite Hfds in H; injection H as <-
       end.
  all: repeat match goal with
       | H1 : nth_error ?l ?i = Some ?a, H2 : nth_error ?l ?i = Some ?b
         |- _ => rewrite H1 in H2; injection H2 as <-
       end.
  all: do 3 eexists; repeat (split; [eassumption|]); cbn.
  all: repeat split.
  all: try (rewrite normals_of_get_optic; reflexivity).
  all: unfold Uxyz; rewrite ?length_map, ?repeat_length;
       try reflexivity.
  all: try match goal with
       | H : (_ =? _) = true |- _ => apply Nat.eqb_eq in H; exact H
       end.
  all: intros E;
       repeat match goal with
       | Hs : slopes_facet_xy _ = _ |- _ => rewrite Hs in E; clear Hs
       end;
       match goal with
       | H : (_ =? _) = false |- _ => apply Nat.eqb_neq in H; contradiction
       end.
Qed.

(** A single-facet result: [get_optic] returns the facet built from the
    first slope record and the first facet definition: its points are the
    solved surface points, it has one unit normal per point, along
    [(-sx, -sy, 1)] when the solver gave one slope pair per point, and its
    shape is the outline of the facet definition projected onto xy. *)
Theorem get_optic_single_facet :
  forall (interpolation_type : InterpolationType) (w w' : World) (o : Optic)
         (ot : OpticType) (dcf : list SlopeSolverData) (fds : list loc),
    get_optic interpolation_type w = (Ok o, w') ->
    optic_type (self w) = Has ot -> ot <> Multi ->
    data_calculation_facet (self w) = Has dcf ->
    data_facet_def (self w) = Has fds ->
    exists d l fd f,
      nth_error dcf 0 = Some d
      /\ nth_error fds 0 = Some l
      /\ nth_error (facet_objs (heap w)) l = Some fd
      /\ o = OpticFacet f
      /\ facet_built_from interpolation_type d fd f.
Proof.
  intros interpolation_type w w' o ot dcf fds H Hot Hne Hdcf Hfds.
  unfold get_optic in H.
  apply bind_ok in H. destruct H as (nf & w1 & Hnf & H).
  apply getattr_ok in Hnf. destruct Hnf as (-> & _ & _).
  apply bind_ok in H. destruct H as (n & w1 & Hn & H).
  apply not_none_ok in Hn. destruct Hn as (_ & ->).
  apply bind_ok in H. destruct H as (fts & w1 & Hloop & H).
  pose proof (facets_loop_world interpolation_type (seq 0 n) w) as Hw.
  rewrite Hloop in Hw. simpl in Hw. subst w1.
  apply bind_ok in H. destruct H as (o1 & w1 & Ho1 & H).
  apply getattr_ok in Ho1. destruct Ho1 as (-> & _ & Ho1).
  rewrite Hot in Ho1. simpl in Ho1. subst o1.
  assert (Hf : exists f, nth_error (map fst fts) 0 = Some f /\ o = OpticFacet f).
  { destruct ot; try contradiction; invert_run;
      eexists; split; try eassumption; reflexivity. }
  destruct Hf as (f & Hf & ->).
  destruct n as [|n]; simpl in Hloop.
  { invert_run. discriminate Hf. }
  apply bind_ok in Hloop. destruct Hloop as (ft & w1 & Hft & Hloop).
  pose proof (facet_of_world interpolation_type 0 w) as Hw.
  rewrite Hft in Hw. simpl in Hw. subst w1.
  invert_run. simpl in Hf. injection Hf as <-.
  destruct (facet_of_ok _ _ _ _ _ _ _ Hft Hdcf Hfds)
    as (d & l & fd & Hd & Hl & Hfd & Hbuilt).
  exists d, l, fd, (fst ft). repeat split; assumption.
Qed.

(** A list read index by index is a prefix of the list read. *)
Lemma indexed_prefix {A} (l es : list A) n :
  map (nth_error l) (seq 0 n) = map Some es ->
  es = firstn n l /\ n <= length l.
Proof.
  intros H. destruct (built_by_index _ _ _ H) as [Hlen Hat].
  assert (Hn : n <= length l).
  { destruct (Nat.le_gt_cases n (length l)) as [Hle|Hgt]; [exact Hle|].
    pose proof (Hat (length l) Hgt) as E.
    rewrite (proj2 (nth_error_None l (length l)) (Nat.le_refl _)) in E.
    apply nth_error_None in E. lia. }
  split; [|exact Hn].
  apply nth_error_ext. intros i. rewrite nth_error_firstn.
  destruct (Nat.ltb_spec i n) as [Hi|Hi].
  - apply Hat. exact Hi.
  - apply nth_error_None. lia.
Qed.

Lemma facet_of_multi_ok interpolation_type idx w ft w' ens :
  facet_of interpolation_type idx w = (Ok ft, w') ->
  optic_type (self w) = Has Multi ->
  data_calculation_ensemble (self w) = Has ens ->
  option_map trans_facet_ensemble (nth_error ens idx) = snd ft
  /\ snd ft <> None.
Proof.
  intros H Hot Hens. unfold facet_of, set_slope_rows in H.
  invert_run_cases.
  all: try congruence.
  all: try match goal with
       | H : attr_value (optic_type _) = None |- _ =>
           rewrite Hot in H; discriminate H
       end.
  all: match goal with
       | H : data_calculation_ensemble (self _) = Has ?x,
         H' : nth_error ?x _ = Some _ |- _ =>
           assert (x = ens) by congruence; subst x; rewrite H'
       end.
  all: simpl; split; [reflexivity|discriminate].
Qed.

Lemma facets_loop_multi interpolation_type ens k : forall a w fts w',
  for_each (seq a k) (facet_of interpolation_type) w = (Ok fts, w') ->
  optic_type (self w) = Has Multi ->
  data_calculation_ensemble (self w) = Has ens ->
  length fts = k
  /\ exists es, map (nth_error ens) (seq a k) = map Some es
                /\ keep_some (map snd fts) = map trans_facet_ensemble es.
Proof.
  induction k as [|k IH]; intros a w fts w' H Hot Hens; simpl in H.
  - invert_run. split; [reflexivity|]. exists []. split; reflexivity.
  - apply bind_ok in H. destruct H as (ft & w1 & Hft & H).
    pose proof (facet_of_world interpolation_type a w) as Hw.
    rewrite Hft in Hw. simpl in Hw. subst w1.
    apply bind_ok in H. destruct H as (rest & w1 & Hrest & H).
    invert_run.
    destruct (facet_of_multi_ok _ _ _ _ _ _ Hft Hot Hens) as [Hsnd Hsome].
    destruct (IH _ _ _ _ Hrest Hot Hens) as (Hlen & es & Hes & Hkeep).
    split; [simpl; rewrite Hlen; reflexivity|].
    destruct (nth_error ens a) as [e|] eqn:Ee;
      [|simpl in Hsnd; symmetry in Hsnd; contradiction].
    exists (e :: es). split; [simpl; rewrite Ee, Hes; reflexivity|].
    change (map snd (ft :: rest)) with (snd ft :: map snd rest).
    rewrite <- Hsnd.
    change (keep_some (option_map trans_facet_ensemble (Some e)
                         :: map snd rest))
      with (trans_facet_ensemble e :: keep_some (map snd rest)).
    rewrite Hkeep. reflexivity.
Qed.

(** A multi-facet result: [get_optic] returns an ensemble with one facet
    per processed facet, and its transform list is the list of the final
    facet-to-ensemble transforms of facets [0 .. num_facets - 1], in
    order. *)
Theorem get_optic_ensemble :
  forall (interpolation_type : InterpolationType) (w w' : World) (o : Optic)
         (n : nat) (ens : list CalculationFacetEnsemble),
    get_optic interpolation_type w = (Ok o, w') ->
    optic_type (self w) = Has Multi ->
    num_facets (self w) = Has n ->
    data_calculation_ensemble (self w) = Has ens ->
    n <= length ens
    /\ exists facets,
         length facets = n
         /\ o = OpticEnsemble facets
                  (map trans_facet_ensemble (firstn n ens)).
Proof.
  intros interpolation_type w w' o n ens H Hot Hn Hens.
  unfold get_optic in H.
  apply bind_ok in H. destruct H as (nf & w1 & Hnf & H).
  apply getattr_ok in Hnf. destruct Hnf as (-> & _ & Hnf).
  rewrite Hn in Hnf. simpl in Hnf. subst nf.
  apply bind_ok in H. destruct H as (n' & w1 & Hn' & H).
  apply not_none_ok in Hn'. destruct Hn' as (Hn' & ->).
  injection Hn' as <-.
  apply bind_ok in H. destruct H as (fts & w1 & Hloop & H).
  pose proof (facets_loop_world interpolation_type (seq 0 n) w) as Hw.
  rewrite Hloop in Hw. simpl in Hw. subst w1.
  apply bind_ok in H. destruct H as (o1 & w1 & Ho1 & H).
  apply getattr_ok in Ho1. destruct Ho1 as (-> & _ & Ho1).
  rewrite Hot in Ho1. simpl in Ho1. subst o1.
  invert_run.
  destruct (facets_loop_multi _ _ _ _ _ _ _ Hloop Hot Hens)
    as (Hlen & es & Hes & Hkeep).
  destruct (indexed_prefix _ _ _ Hes) as [-> Hle].
  split; [exact Hle|].
  exists (map fst fts). split; [rewrite length_map; exact Hlen|].
  rewrite Hkeep. reflexivity.
Qed.

(** On a new instance nothing can be computed: without a measurement
    [find_blobs] and [_calculate_mask] end in an [AttributeError], without
    results [_calculate_facet_pointing] ends in an [AttributeError] and
    [get_optic] in a [TypeError] ([num_facets] is still [None]); the
    instance stays as [__init__] made it. *)
Theorem new_instance_has_no_results :
  forall (o : SpatialOrientation) (c : Camera)
         (dots : DotLocationsFixedPattern) (h : Heap)
         (l : list (level * message)) (pts_known : list V2)
         (xys_known : list (Z * Z)) (reference : Reference)
         (interpolation_type : InterpolationType),
    let w := MkWorld (init o c dots) h l in
    find_blobs pts_known xys_known w
    = (Raise (AttributeError "measurement"), w)
    /\ _calculate_mask w = (Raise (AttributeError "measurement"), w)
    /\ _calculate_facet_pointing reference w
       = (Raise (AttributeError "data_calculation_facet"), w)
    /\ get_optic interpolation_type w = (Raise TypeError, w).
Proof. intros. repeat split. Qed.

End OpticFacts.

(* ================================================================== *)
(** * More on the mask and on the single-facet geometry *)
(* ================================================================== *)

Section MaskAgain.
Context {Num : Numbers} {Rec : Records} {Col : Collaborators}.

(** Once a multi-facet run has switched [keep_largest_area] off, it stays
    off: computing the mask again gives the raw mask without a second
    warning and without any change, and a later single-facet run on the
    same instance gets the raw mask too, not the largest region the user
    had asked for. *)
Theorem forced_off_option_stays_off :
  forall (w : World) (m : MeasurementSofastFixed) (raw : Mask),
    measurement (self w) = Has m ->
    optic_type (self w) = Has Multi ->
    keep_largest_area (mask (params (self w))) = true ->
    calc_mask_raw (stack_images (image_times (image m) 0) (image m))
      (hist_thresh (mask (params (self w))))
      (filt_width (mask (params (self w))))
      (filt_thresh (mask (params (self w))))
      (thresh_active_pixels (mask (params (self w)))) = Ok raw ->
    let w' := snd (_calculate_mask w) in
    let w'' := set_self (set_optic_type (Has Single) (self w')) w' in
    _calculate_mask w' = (Ok raw, w')
    /\ _calculate_mask w'' = (Ok raw, w'').
Proof.
  intros w m raw Hm Hot Hkeep Hraw w' w''.
  assert (Ew : w' = set_self
                     (set_params
                        (with_keep_largest_area false (params (self w)))
                        (self w))
                     (add_log WARN MsgKeepLargestArea w)).
  { subst w'. rewrite (calculate_mask_run w m Hm)
      by (rewrite Hot; discriminate).
    cbv zeta. rewrite Hraw, Hot, Hkeep. reflexivity. }
  split.
  - rewrite (calculate_mask_run w' m)
      by (rewrite Ew; simpl; first [exact Hm | rewrite Hot; discriminate]).
    rewrite Ew. cbn. rewrite Hraw, Hot. reflexivity.
  - rewrite (calculate_mask_run w'' m)
      by (subst w''; rewrite Ew; simpl; first [exact Hm | discriminate]).
    subst w''. rewrite Ew. cbn. rewrite Hraw. reflexivity.
Qed.

(** If the geometry solver raises, [_process_optic_singlefacet_geometry]
    passes the exception on and has assigned nothing: the five geometry
    attributes are assigned together, after the solver has returned. *)
Theorem single_geometry_error_assigns_nothing :
  forall (w : World) (b : BlobIndex) (mask_raw : Mask) (fd0 : loc)
         (fds : list loc) (m : MeasurementSofastFixed) (e : exn) (h' : Heap),
    data_facet_def (self w) = Has (fd0 :: fds) ->
    measurement (self w) = Has m ->
    process_singlefacet_geometry fd0 mask_raw (v_measure_point_facet m)
      (dist_optic_screen m) (orientation (self w)) (camera (self w))
      (geometry (params (self w))) (debug_geometry (params (self w)))
      (heap w) = (Raise e, h') ->
    _process_optic_singlefacet_geometry b mask_raw w
    = (Raise e, set_heap h' w).
Proof.
  intros w b mask_raw fd0 fds m e h' Hfd Hm Hg.
  unfold _process_optic_singlefacet_geometry.
  unfold bind at 1. unfold getattr at 1. rewrite Hfd.
  unfold bind at 1. cbn [not_none ret].
  unfold bind at 1. cbn [subscript nth_error ret].
  unfold bind at 1. unfold getattr at 1. rewrite Hm.
  unfold bind at 1. cbn [dot ret].
  unfold bind at 1. unfold getattr at 1. rewrite Hm.
  unfold bind at 1. cbn [dot ret].
  unfold bind at 1. unfold read at 1.
  unfold bind at 1. unfold read at 1.
  unfold bind at 1. unfold read at 1.
  unfold bind at 1. unfold with_heap at 1. rewrite Hg. reflexivity.
Qed.

End MaskAgain.

Section MaskAgainOnToy.
#[local] Existing Instance Toy.numbers.
#[local] Existing Instance Toy.records.
#[local] Existing Instance Toy.collaborators.
Import Toy.

Lemma forced_off_option_stays_off_witness :
  _calculate_mask
    (set_self
       (set_optic_type (Has Single)
          (self (snd (_calculate_mask (keeping Multi loaded)))))
       (snd (_calculate_mask (keeping Multi loaded))))
  = (Ok [[true; true]; [false; true]],
     set_self
       (set_optic_type (Has Single)
          (self (snd (_calculate_mask (keeping Multi loaded)))))
       (snd (_calculate_mask (keeping Multi loaded)))).
Proof.
  destruct (forced_off_option_stays_off (keeping Multi loaded) measured
              [[true; true]; [false; true]]) as [_ H];
    [reflexivity | reflexivity | reflexivity | reflexivity | exact H].
Defined.

Lemma single_geometry_error_assigns_nothing_witness :
  _process_optic_singlefacet_geometry
    {| blob_data := []; search_thresh := 0;
       search_perp_axis_ratio_of_index := 0 |}
    [[false]]
    (set_self (set_data_facet_def (Has [0%nat]) (self loaded)) loaded)
  = (Raise (ValueError (MsgCollaborator "empty mask")),
     set_self (set_data_facet_def (Has [0%nat]) (self loaded)) loaded).
Proof.
  apply (single_geometry_error_assigns_nothing
           (set_self (set_data_facet_def (Has [0%nat]) (self loaded)) loaded)
           _ [[false]] 0%nat [] measured
           (ValueError (MsgCollaborator "empty mask")) store);
    reflexivity.
Defined.

End MaskAgainOnToy.

(* ================================================================== *)
(** * The solver inputs of a multi-facet run *)
(* ================================================================== *)

Section MultiGeometry.
Context {Num : Numbers} {Rec : Records} {Col : Collaborators}.

Lemma with_heap_ok {A} (f : Heap -> Res A * Heap) (a : A) w w' :
  with_heap f w = (Ok a, w') ->
  exists h, f (heap w) = (Ok a, h) /\ w' = set_heap h w.
Proof.
  unfold with_heap. destruct (f (heap w)) as [r h]. intros H.
  injection H as -> <-. exists h. split; reflexivity.
Qed.

(** One pass of the loop: the inputs of facet [idx] name the surface at
    position [idx], and the one debug object now refers to the definition
    of facet [idx]. *)
Lemma multifacet_kwargs_ok b idx w kw w' fds ss :
  multifacet_kwargs b idx w = (Ok kw, w') ->
  data_facet_def (self w) = Has fds ->
  data_surfaces (self w) = Has ss ->
  exists fd,
    nth_error fds idx = Some fd
    /\ nth_error ss idx = Some (kw_surface kw)
    /\ w' = set_self (set_params (with_optic_data fd (params (self w)))
                                 (self w)) w.
Proof.
  intros H Hfds Hss. unfold multifacet_kwargs in H.
  invert_run_cases.
  cbn [self set_self data_surfaces set_params] in *.
  repeat match goal with
  | H : data_facet_def (self _) = Has ?x |- _ =>
      assert (x = fds) by congruence; subst x; clear H
  | H : data_surfaces (self _) = Has ?x |- _ =>
      assert (x = ss) by congruence; subst x; clear H
  end.
  eexists. split; [eassumption|]. split; [eassumption|reflexivity].
Qed.

Lemma multifacet_loop_ok b fds ss k : forall a w kws w',
  for_each (seq a k) (multifacet_kwargs b) w = (Ok kws, w') ->
  data_facet_def (self w) = Has fds ->
  data_surfaces (self w) = Has ss ->
  map (nth_error ss) (seq a k) = map Some (map kw_surface kws)
  /\ (0 < k ->
      optic_data (debug_slope_solver (params (self w')))
      = nth_error fds (a + k - 1)).
Proof.
  induction k as [|k IH]; intros a w kws w' H Hfds Hss; simpl in H.
  - invert_run. split; [reflexivity|]. intros Hk. inversion Hk.
  - apply bind_ok in H. destruct H as (kw & w1 & Hkw & H).
    apply bind_ok in H. destruct H as (rest & w2 & Hrest & H).
    invert_run.
    destruct (multifacet_kwargs_ok _ _ _ _ _ _ _ Hkw Hfds Hss)
      as (fd & Hfd & Hs & ->).
    destruct (IH _ _ _ _ Hrest Hfds Hss) as [Hsurf Hlast].
    split.
    + simpl. rewrite Hs, Hsurf. reflexivity.
    + intros _. destruct k as [|k].
      * simpl in Hrest. invert_run. simpl.
        replace (a + 1 - 1) with a by lia. symmetry. exact Hfd.
      * rewrite Hlast by lia. f_equal. lia.
Qed.

Lemma multifacet_geometry_ok b mask_raw w w' kws n fds ss :
  _process_optic_multifacet_geometry b mask_raw w = (Ok kws, w') ->
  num_facets (self w) = Has n ->
  data_facet_def (self w) = Has fds ->
  data_surfaces (self w) = Has ss ->
  length kws = n
  /\ n <= length ss
  /\ map kw_surface kws = firstn n ss
  /\ (0 < n ->
      optic_data (debug_slope_solver (params (self w')))
      = nth_error fds (n - 1)).
Proof.
  intros H Hn Hfds Hss.
  unfold _process_optic_multifacet_geometry in H.
  repeat (apply bind_ok in H; destruct H as (? & ? & ? & H)).
  match goal with
  | Hh : with_heap _ _ = _ |- _ =>
      apply with_heap_ok in Hh; destruct Hh as (h & _ & ->)
  end.
  match goal with
  | Hs : store_geometry ?g _ = _ |- _ =>
      unfold store_geometry in Hs; destruct g as [[[[g1 g2] g3] g4] g5]
  end.
  invert_run.
  cbn [self set_self set_heap num_facets set_data_error
       set_data_image_processing_facet set_data_geometry_facet
       set_data_image_proccessing_general set_data_geometry_general] in *.
  match goal with
  | Hx : num_facets (self w) = Has ?x |- _ =>
      assert (x = n) by congruence; subst x
  end.
  destruct (multifacet_loop_ok _ fds ss _ _ _ _ _ H) as [Hsurf Hlast];
    [exact Hfds | exact Hss |].
  destruct (indexed_prefix _ _ _ Hsurf) as [Hpre Hle].
  split.
  { apply (f_equal (@length _)) in Hsurf.
    rewrite !length_map, length_seq in Hsurf. symmetry. exact Hsurf. }
  split; [exact Hle|]. split; [exact Hpre|].
  intros Hpos. rewrite (Hlast Hpos). reflexivity.
Qed.

(** [_process_optic_multifacet_geometry], when it returns, gives one set of
    solver inputs per facet, facet [i] with the surface at position [i] of
    [data_surfaces].  The debug object is shared by all of them, and after
    the loop it refers to the definition of the last facet: every slope
    solver of the run is built with the last facet as its [optic_data]. *)
Theorem multifacet_geometry_inputs :
  forall (b : BlobIndex) (mask_raw : Mask) (w w' : World)
         (kws : list SlopeSolverArgs) (n : nat) (fds ss : list loc),
    _process_optic_multifacet_geometry b mask_raw w = (Ok kws, w') ->
    num_facets (self w) = Has n ->
    data_facet_def (self w) = Has fds ->
    data_surfaces (self w) = Has ss ->
    length kws = n
    /\ n <= length ss
    /\ map kw_surface kws = firstn n ss
    /\ (0 < n ->
        optic_data (debug_slope_solver (params (self w')))
        = nth_error fds (n - 1)).
Proof.
  intros b mask_raw w w' kws n fds ss H Hn Hfds Hss.
  exact (multifacet_geometry_ok b mask_raw w w' kws n fds ss H Hn Hfds Hss).
Qed.

End MultiGeometry.

(* ================================================================== *)
(** * More on facet pointing *)
(* ================================================================== *)

Section PointingAgain.
Context {Num : Numbers} {Rec : Records} {Col : Collaborators}.

(** A call of [_calculate_facet_pointing] that returns replaces
    [data_calculation_ensemble] by a list with one record per facet and
    changes nothing else, neither on the instance nor in the store nor in
    the log.  In each record the surface points are the facet's solved
    points moved by the record's own transform, and the pointing vector is
    the image of the optical axis under its rotation. *)
Theorem facet_pointing_changes_ensemble_records_only :
  forall (reference : Reference) (w w' : World) (u : unit) (n : nat)
         (dcf : list SlopeSolverData),
    _calculate_facet_pointing reference w = (Ok u, w') ->
    num_facets (self w) = Has n ->
    data_calculation_facet (self w) = Has dcf ->
    exists recs,
      self w' = set_data_calculation_ensemble (Has recs) (self w)
      /\ heap w' = heap w
      /\ log w' = log w
      /\ length recs = n
      /\ forall idx rec d,
           nth_error recs idx = Some rec ->
           nth_error dcf idx = Some d ->
           v_surf_points_ensemble rec
           = trans_apply (trans_facet_ensemble rec) (v_surf_points_facet d)
           /\ v_facet_pointing_ensemble rec
              = rotate ez (tR (trans_facet_ensemble rec)).
Proof.
  intros reference w w' u n dcf H Hn Hdcf.
  destruct (facet_pointing_shape _ _ _ _ _ _ H Hn Hdcf)
    as (tvs & v & R & recs & _ & _ & _ & Hrecs & ->).
  destruct (built_by_index _ _ _ Hrecs) as [Hlen Hat].
  exists recs.
  split; [reflexivity|]. split; [reflexivity|]. split; [reflexivity|].
  split; [exact Hlen|].
  intros idx rec d Hr Hd.
  assert (Hidx : idx < n).
  { rewrite <- Hlen. apply nth_error_Some. rewrite Hr. discriminate. }
  rewrite (Hat idx Hidx) in Hr. unfold record_at in Hr. rewrite Hd in Hr.
  destruct (nth_error _ idx); [|discriminate Hr].
  injection Hr as <-. split; reflexivity.
Qed.

(** The records that were there before play no part: the method starts
    from an empty list. *)
Lemma facet_pointing_forgets_old_records reference (w : World) old :
  let w_old := set_self (set_data_calculation_ensemble old (self w)) w in
  fst (_calculate_facet_pointing reference w_old)
  = fst (_calculate_facet_pointing reference w)
  /\ (forall u, fst (_calculate_facet_pointing reference w) = Ok u ->
      snd (_calculate_facet_pointing reference w_old)
      = snd (_calculate_facet_pointing reference w)).
Proof.
  destruct w as [s h l].
  destruct s as [o c dl p m b nf ot fd ed sf gg ig gf imf er cf ce ss bi].
  cbv beta iota zeta delta
    [_calculate_facet_pointing bind getattr error_and_raise ret not_none
     update raise set_self set_data_calculation_ensemble add_log
     self heap log
     orientation camera fixed_pattern_dot_locs params measurement
     blob_detector num_facets optic_type data_facet_def data_ensemble_def
     data_surfaces data_geometry_general data_image_proccessing_general
     data_geometry_facet data_image_processing_facet data_error
     data_calculation_facet data_calculation_ensemble slope_solver
     blob_index].
  destruct cf as [| |dcf]; [split; [reflexivity|discriminate] ..|].
  destruct reference as [r|i|]; [destruct (String.eqb r "average")| |];
    try (split; [reflexivity|discriminate]).
  - split; [reflexivity|]. intros _ _. reflexivity.
  - destruct nf as [| |n]; try (split; [reflexivity|discriminate]).
    destruct (Z.of_nat n <=? i)%Z;
      [split; [reflexivity|discriminate]|].
    split; [reflexivity|]. intros _ _. reflexivity.
Qed.

(** Calling [_calculate_facet_pointing] again with the same reference gives
    the same records again: the list is rebuilt, not extended. *)
Theorem facet_pointing_twice :
  forall (reference : Reference) (w w' : World) (u : unit) (n : nat)
         (dcf : list SlopeSolverData),
    _calculate_facet_pointing reference w = (Ok u, w') ->
    num_facets (self w) = Has n ->
    data_calculation_facet (self w) = Has dcf ->
    _calculate_facet_pointing reference w' = (Ok u, w').
Proof.
  intros reference w w' u n dcf H Hn Hdcf.
  destruct (facet_pointing_shape _ _ _ _ _ _ H Hn Hdcf)
    as (tvs & v & R & recs & _ & _ & _ & _ & Ew).
  destruct (facet_pointing_forgets_old_records reference w (Has recs))
    as [Hfst Hsnd].
  cbv zeta in Hfst, Hsnd. rewrite <- Ew in Hfst, Hsnd.
  rewrite H in Hfst, Hsnd. simpl in Hfst, Hsnd.
  specialize (Hsnd u eq_refl).
  destruct (_calculate_facet_pointing reference w') as [r1 w1].
  simpl in Hfst, Hsnd. subst r1 w1. reflexivity.
Qed.

End PointingAgain.

(* ================================================================== *)
(** * The facts above on the concrete collaborators *)
(* ================================================================== *)

Section ExtrasOnToy.
#[local] Existing Instance Toy.numbers.
#[local] Existing Instance Toy.records.
#[local] Existing Instance Toy.collaborators.
Import Toy.

Lemma process_single_before_loading_witness :
  fst (process_single_facet_optic 0%nat 0%nat [pt] xy fresh)
  = Raise (AttributeError "measurement")
  /\ optic_type
       (self (snd (process_single_facet_optic 0%nat 0%nat [pt] xy fresh)))
     = Has Single.
Proof.
  destruct (process_single_before_loading fresh 0%nat 0%nat [pt] xy facet_def)
    as (H1 & H2 & _); [reflexivity | reflexivity | reflexivity |].
  exact (conj H1 H2).
Defined.

Lemma get_optic_sources_witness :
  fst (get_optic Nearest processed_single)
  = fst (get_optic Nearest
           (MkWorld (self processed_single) (heap processed_single) [])).
Proof.
  generalize processed_single. intro w.
  apply (get_optic_sources Nearest w (MkWorld (self w) (heap w) [])).
  repeat split.
Defined.

Lemma get_optic_single_facet_witness :
  exists d l fd f,
    nth_error [flat_pixel] 0 = Some d
    /\ nth_error [3%nat] 0 = Some l
    /\ nth_error (facet_objs (heap processed_single)) l = Some fd
    /\ fst (get_optic Nearest processed_single) = Ok (OpticFacet f)
    /\ facet_built_from Nearest d fd f.
Proof.
  destruct (get_optic Nearest processed_single) as [r w1] eqn:E.
  assert (Hok : match fst (get_optic Nearest processed_single) with
                | Ok _ => True
                | Raise _ => False
                end) by exact I.
  rewrite E in Hok. simpl in Hok. destruct r as [o|]; [|contradiction].
  destruct (get_optic_single_facet Nearest processed_single w1 o Single
              [flat_pixel] [3%nat] E)
    as (d & l & fd & f & Hd & Hl & Hfd & Ho & Hb);
    [reflexivity | discriminate | reflexivity | reflexivity |].
  exists d, l, fd, f. subst o. repeat split; assumption.
Defined.

Lemma get_optic_ensemble_witness :
  exists facets ens,
    data_calculation_ensemble (self processed_two) = Has ens
    /\ length facets = 2%nat
    /\ fst (get_optic Nearest processed_two)
       = Ok (OpticEnsemble facets
               (map trans_facet_ensemble (firstn 2 ens))).
Proof.
  destruct (get_optic Nearest processed_two) as [r w1] eqn:E.
  assert (Hok : match fst (get_optic Nearest processed_two) with
                | Ok _ => True
                | Raise _ => False
                end) by exact I.
  rewrite E in Hok. simpl in Hok. destruct r as [o|]; [|contradiction].
  destruct (data_calculation_ensemble (self processed_two)) as [| |ens] eqn:Ee;
    try (exfalso;
         assert (Hx : match data_calculation_ensemble (self processed_two) with
                      | Has _ => True
                      | _ => False
                      end) by exact I;
         rewrite Ee in Hx; exact Hx).
  destruct (get_optic_ensemble Nearest processed_two w1 o 2%nat ens E)
    as (_ & facets & Hlen & Ho);
    [reflexivity | reflexivity | exact Ee |].
  exists facets, ens. subst o. repeat split; assumption.
Defined.

Lemma multifacet_geometry_inputs_witness :
  exists kws,
    fst (_process_optic_multifacet_geometry
           no_blobs
           [[true]] processed_two) = Ok kws
    /\ map kw_surface kws = [0%nat; 1%nat]
    /\ optic_data
         (debug_slope_solver
            (params
               (self
                  (snd (_process_optic_multifacet_geometry
                          no_blobs
                          [[true]] processed_two)))))
       = Some 4%nat.
Proof.
  destruct (_process_optic_multifacet_geometry
              no_blobs
              [[true]] processed_two) as [r w1] eqn:E.
  assert (Hok : match fst (_process_optic_multifacet_geometry
                             no_blobs
                             [[true]] processed_two) with
                | Ok _ => True
                | Raise _ => False
                end) by exact I.
  rewrite E in Hok. simpl in Hok. destruct r as [kws|]; [|contradiction].
  destruct (multifacet_geometry_inputs _ _ _ _ _ 2%nat [3; 4]%nat
              [0; 1]%nat E) as (_ & _ & Hs & Hlast);
    [reflexivity | reflexivity | reflexivity |].
  exists kws. simpl. split; [reflexivity|]. split; [exact Hs|].
  apply Hlast. lia.
Defined.

Lemma facet_pointing_changes_ensemble_records_only_witness :
  exists recs,
    self (snd (_calculate_facet_pointing (RefInt 0) processed_tilted))
    = set_data_calculation_ensemble (Has recs) (self processed_tilted)
    /\ heap (snd (_calculate_facet_pointing (RefInt 0) processed_tilted))
       = heap processed_tilted
    /\ length recs = 2%nat.
Proof.
  destruct (facet_pointing_changes_ensemble_records_only (RefInt 0)
              processed_tilted
              (snd (_calculate_facet_pointing (RefInt 0) processed_tilted))
              tt 2%nat [flat_pixel; flat_pixel])
    as (recs & Hs & Hh & _ & Hlen & _).
  - apply run_returns. reflexivity.
  - reflexivity.
  - reflexivity.
  - exists recs. exact (conj Hs (conj Hh Hlen)).
Defined.

Lemma facet_pointing_twice_witness :
  _calculate_facet_pointing (RefInt 0)
    (snd (_calculate_facet_pointing (RefInt 0) processed_tilted))
  = (Ok tt, snd (_calculate_facet_pointing (RefInt 0) processed_tilted)).
Proof.
  apply (facet_pointing_twice (RefInt 0) processed_tilted
           (snd (_calculate_facet_pointing (RefInt 0) processed_tilted))
           tt 2%nat [flat_pixel; flat_pixel]).
  - apply run_returns. reflexivity.
  - reflexivity.
  - reflexivity.
Defined.

End ExtrasOnToy.

(* ================================================================== *)
(** * What a run that returns has assigned *)
(* ================================================================== *)

Section Runs.
Context {Num : Numbers} {Rec : Records} {Col : Collaborators}.
Local Open Scope py_scope.

Lemma copy_facet_ok l c w w' :
  copy_facet l w = (Ok c, w') ->
  exists d,
    nth_error (facet_objs (heap w)) l = Some d
    /\ c = length (facet_objs (heap w))
    /\ w' = set_heap (alloc_facet d (heap w)) w.
Proof.
  unfold copy_facet. intros H.
  apply bind_ok in H. destruct H as (d & w1 & Hd & H).
  apply deref_facet_ok in Hd. destruct Hd as [Hd ->].
  injection H as <- <-. exists d. repeat split. exact Hd.
Qed.

Lemma copy_ensemble_ok l c w w' :
  copy_ensemble l w = (Ok c, w') ->
  exists d,
    nth_error (ensemble_objs (heap w)) l = Some d
    /\ c = length (ensemble_objs (heap w))
    /\ w' = set_heap (alloc_ensemble d (heap w)) w.
Proof.
  unfold copy_ensemble. intros H.
  apply bind_ok in H. destruct H as (d & w1 & Hd & H).
  apply deref_ensemble_ok in Hd. destruct Hd as [Hd ->].
  injection H as <- <-. exists d. repeat split. exact Hd.
Qed.

(** The steps of [process_single_facet_optic] after the surfaces are
    assigned leave the inputs of the run alone. *)
Lemma single_keeps_inputs fds ss ms ed pt_known xy_known :
  stable (on_self (run_inputs Single 1 fds ss ms ed))
    (b <- find_blobs pt_known [xy_known] ;;
     update (set_blob_index (Has b)) ;;
     mask_raw <- _calculate_mask ;;
     b <- getattr "blob_index" blob_index ;;
     b <- not_none b ;;
     kwargs <- _process_optic_singlefacet_geometry b mask_raw ;;
     solver <- build_and_solve kwargs ;;
     update (set_slope_solver (Has [solver])) ;;
     d <- lift (get_data solver) ;;
     update (set_data_calculation_facet (Has [d]))).
Proof. unfold run_inputs. stable_methods. Qed.

Lemma single_keeps_ensemble_records x pt_known xy_known :
  stable (on_self (fun s => data_calculation_ensemble s = x))
    (b <- find_blobs pt_known [xy_known] ;;
     update (set_blob_index (Has b)) ;;
     mask_raw <- _calculate_mask ;;
     b <- getattr "blob_index" blob_index ;;
     b <- not_none b ;;
     kwargs <- _process_optic_singlefacet_geometry b mask_raw ;;
     solver <- build_and_solve kwargs ;;
     update (set_slope_solver (Has [solver])) ;;
     d <- lift (get_data solver) ;;
     update (set_data_calculation_facet (Has [d]))).
Proof. stable_methods. Qed.

(** A call of [process_single_facet_optic] that returns leaves the instance
    as a single-facet run with one facet: [data_facet_def] holds the one
    new copy of the facet definition, [data_surfaces] the surface given,
    [slope_solver] one solver and [data_calculation_facet] the one record
    that solver reports, whatever these attributes held before.  The
    measurement is the one that was loaded.  The ensemble attributes
    [data_ensemble_def] and [data_calculation_ensemble] are not touched:
    after a multi-facet run they still hold that run's values. *)
Theorem single_facet_run_results :
  forall (fd surf : loc) (pt_known : list V2) (xy_known : Z * Z)
         (w w' : World) (u : unit),
    process_single_facet_optic fd surf pt_known xy_known w = (Ok u, w') ->
    optic_type (self w') = Has Single
    /\ num_facets (self w') = Has 1
    /\ data_facet_def (self w') = Has [length (facet_objs (heap w))]
    /\ data_surfaces (self w') = Has [surf]
    /\ (exists solver d,
          slope_solver (self w') = Has [solver]
          /\ get_data solver = Ok d
          /\ data_calculation_facet (self w') = Has [d])
    /\ measurement (self w') = measurement (self w)
    /\ data_ensemble_def (self w') = data_ensemble_def (self w)
    /\ data_calculation_ensemble (self w')
       = data_calculation_ensemble (self w).
Proof.
  intros fd surf pt_known xy_known w w' u H.
  unfold process_single_facet_optic in H.
  apply bind_ok in H. destruct H as (? & w0 & Hcheck & H).
  assert (w0 = w) as ->.
  { destruct (negb _) in Hcheck; invert_run. reflexivity. }
  clear Hcheck.
  apply bind_ok in H. destruct H as (? & ? & H1 & H). apply update_ok in H1.
  apply bind_ok in H. destruct H as (? & ? & H2 & H). apply update_ok in H2.
  subst.
  apply bind_ok in H. destruct H as (c & w1 & Hc & H).
  apply copy_facet_ok in Hc. destruct Hc as (d0 & _ & -> & ->).
  apply bind_ok in H. destruct H as (? & ? & H1 & H). apply update_ok in H1.
  apply bind_ok in H. destruct H as (? & ? & H2 & H). apply update_ok in H2.
  subst.
  match type of H with
  | _ ?w2 = _ =>
      pose proof (single_keeps_inputs [length (facet_objs (heap w))] [surf]
                    (measurement (self w)) (data_ensemble_def (self w))
                    pt_known xy_known w2) as Hin;
      pose proof (single_keeps_ensemble_records
                    (data_calculation_ensemble (self w))
                    pt_known xy_known w2) as Hens
  end.
  rewrite H in Hin, Hens. cbn [snd] in Hin, Hens.
  destruct Hin as (Hot & Hn & Hfd & Hss & Hms & Hed);
    [repeat split|].
  specialize (Hens eq_refl).
  repeat (apply bind_ok in H; destruct H as (? & ? & ? & H)).
  invert_run.
  repeat split; try assumption.
  eexists _, _. repeat split. eassumption.
Qed.

(** ** Multi-facet runs *)

Lemma copies_ok fds : forall w cs w',
  for_each fds copy_facet w = (Ok cs, w') ->
  cs = seq (length (facet_objs (heap w))) (length fds)
  /\ length (facet_objs (heap w'))
     = length (facet_objs (heap w)) + length fds
  /\ ensemble_objs (heap w') = ensemble_objs (heap w)
  /\ self w' = self w.
Proof.
  induction fds as [|l fds IH]; intros w cs w' H; simpl in H.
  - invert_run. simpl. repeat split. lia.
  - apply bind_ok in H. destruct H as (c & w1 & Hc & H).
    apply bind_ok in H. destruct H as (rest & w2 & Hrest & H).
    invert_run.
    apply copy_facet_ok in Hc. destruct Hc as (d & _ & -> & ->).
    destruct (IH _ _ _ Hrest) as (-> & Hlen & Hens & Hself).
    cbn [heap set_heap alloc_facet facet_objs ensemble_objs self] in *.
    rewrite length_app in *. cbn [length] in *.
    repeat split.
    + simpl. f_equal. f_equal. lia.
    + lia.
    + exact Hens.
    + exact Hself.
Qed.

(** The solving loop appends one solver and the record it reports per set
    of inputs. *)
Lemma solve_loop_ok kws : forall w u w' solvers ds,
  for_do kws solve_facet w = (Ok u, w') ->
  slope_solver (self w) = Has solvers ->
  data_calculation_facet (self w) = Has ds ->
  exists solvers' ds',
    slope_solver (self w') = Has (solvers ++ solvers')
    /\ data_calculation_facet (self w') = Has (ds ++ ds')
    /\ length ds' = length kws
    /\ Forall2 (fun s d => get_data s = Ok d) solvers' ds'.
Proof.
  induction kws as [|kw kws IH]; intros w u w' solvers ds H Hs Hd;
    simpl in H.
  - invert_run. exists [], []. rewrite !app_nil_r.
    repeat split; try assumption. constructor.
  - apply bind_ok in H. destruct H as (? & w1 & Hkw & H).
    unfold solve_facet in Hkw.
    apply bind_ok in Hkw. destruct Hkw as (solver & w0 & Hb & Hkw).
    assert (Hkeep : stable (on_self (fun s => slope_solver s = Has solvers
                                     /\ data_calculation_facet s = Has ds))
                      (build_and_solve kw)) by stable_methods.
    specialize (Hkeep w (conj Hs Hd)). rewrite Hb in Hkeep.
    destruct Hkeep as [Hs0 Hd0]. cbn [snd] in Hs0, Hd0.
    invert_run.
    repeat match goal with
    | Hx : slope_solver (self _) = Has ?x |- _ =>
        assert (x = solvers) by congruence; subst x; clear Hx
    | Hx : data_calculation_facet (self _) = Has ?x |- _ =>
        assert (x = ds) by (cbn in Hx; congruence); subst x; clear Hx
    end.
    match goal with
    | Hg : get_data solver = Ok ?d |- _ =>
        destruct (IH _ _ _ (solvers ++ [solver]) (ds ++ [d]) H)
          as (solvers' & ds' & Hs' & Hd' & Hlen & Hall);
          [reflexivity | reflexivity |];
        exists (solver :: solvers'), (d :: ds')
    end.
    rewrite <- !app_assoc in Hs', Hd'.
    repeat split; try assumption.
    + simpl. f_equal. exact Hlen.
    + constructor; assumption.
Qed.

Lemma seq_last a n : 0 < n -> nth_error (seq a n) (n - 1) = Some (a + n - 1).
Proof.
  intros Hn.
  rewrite (nth_error_nth' (seq a n) 0) by (rewrite length_seq; lia).
  rewrite seq_nth by lia. f_equal. lia.
Qed.

(** A call of [process_multi_facet_optic] that returns leaves the instance
    as a multi-facet run over as many facets as definitions were given:
    [data_facet_def] and [data_ensemble_def] hold new copies, there is one
    solver, one facet record and one ensemble record per facet, and each
    facet record is the one its solver reports.  There are at least as many
    surfaces as facets; surfaces beyond that number went unused.  The one
    debug object refers to the copy of the last facet definition. *)
Theorem multi_facet_run_results :
  forall (fds surfaces : list loc) (e : loc) (pts_known : list V2)
         (xys_known : list (Z * Z)) (w w' : World) (u : unit),
    process_multi_facet_optic fds surfaces e pts_known xys_known w
    = (Ok u, w') ->
    optic_type (self w') = Has Multi
    /\ num_facets (self w') = Has (length fds)
    /\ data_facet_def (self w')
       = Has (seq (length (facet_objs (heap w))) (length fds))
    /\ data_ensemble_def (self w') = Has (length (ensemble_objs (heap w)))
    /\ data_surfaces (self w') = Has surfaces
    /\ measurement (self w') = measurement (self w)
    /\ length fds <= length surfaces
    /\ (0 < length fds ->
        optic_data (debug_slope_solver (params (self w')))
        = Some (length (facet_objs (heap w)) + length fds - 1))
    /\ exists solvers ds recs,
         slope_solver (self w') = Has solvers
         /\ data_calculation_facet (self w') = Has ds
         /\ data_calculation_ensemble (self w') = Has recs
         /\ Forall2 (fun s d => get_data s = Ok d) solvers ds
         /\ length ds = length fds
         /\ length recs = length fds.
Proof.
  intros fds surfaces e pts_known xys_known w w' u H.
  unfold process_multi_facet_optic in H.
  apply bind_ok in H. destruct H as (? & w0 & Hcheck & H).
  assert (w0 = w) as ->.
  { match type of Hcheck with
    | (if ?c then _ else _) _ = _ => destruct c
    end; invert_run. reflexivity. }
  clear Hcheck.
  apply bind_ok in H. destruct H as (? & ? & H1 & H). apply update_ok in H1.
  apply bind_ok in H. destruct H as (? & ? & H2 & H). apply update_ok in H2.
  subst.
  apply bind_ok in H. destruct H as (cs & w1 & Hcs & H).
  apply copies_ok in Hcs. destruct Hcs as (-> & _ & Hens1 & Hself1).
  apply bind_ok in H. destruct H as (? & ? & H1 & H). apply update_ok in H1.
  subst.
  apply bind_ok in H. destruct H as (ce & w2 & Hce & H).
  apply copy_ensemble_ok in Hce. destruct Hce as (d0 & _ & -> & ->).
  apply bind_ok in H. destruct H as (? & ? & H1 & H). apply update_ok in H1.
  apply bind_ok in H. destruct H as (? & ? & H2 & H). apply update_ok in H2.
  subst.
  cbn [self heap set_self set_heap] in H, Hens1, Hself1.
  rewrite Hens1, Hself1 in H. cbn [heap set_self set_heap] in H.
  set (n := length fds) in *.
  set (cs := seq (length (facet_objs (heap w))) n) in *.
  set (ce := length (ensemble_objs (heap w))) in *.
  set (Q := on_self (run_inputs Multi n cs surfaces (measurement (self w))
                       (Has ce))).
  apply bind_ok in H. destruct H as (b & w3 & Hfb & H).
  assert (Q3 : Q w3).
  { assert (Hst : stable Q (find_blobs pts_known xys_known))
      by (unfold Q, run_inputs; stable_methods).
    match type of Hfb with
    | _ ?w0 = _ => specialize (Hst w0)
    end.
    rewrite Hfb in Hst. apply Hst.
    unfold Q, on_self, run_inputs. cbn. repeat split. }
  apply bind_ok in H. destruct H as (? & ? & H1 & H). apply update_ok in H1.
  subst.
  apply bind_ok in H. destruct H as (mask_raw & w4 & Hmask & H).
  assert (Q4 : Q w4).
  { assert (Hst : stable Q _calculate_mask)
      by (unfold Q, run_inputs; stable_methods).
    match type of Hmask with
    | _ ?w0 = _ => specialize (Hst w0)
    end.
    rewrite Hmask in Hst. apply Hst. exact Q3. }
  apply bind_ok in H. destruct H as (ob & ? & H1 & H).
  apply getattr_ok in H1. destruct H1 as (-> & _ & _).
  apply bind_ok in H. destruct H as (b' & ? & H2 & H).
  apply not_none_ok in H2. destruct H2 as [_ ->].
  apply bind_ok in H. destruct H as (kws & w5 & Hgeo & H).
  assert (Q5 : Q w5).
  { assert (Hst : stable Q (_process_optic_multifacet_geometry b' mask_raw))
      by (unfold Q, run_inputs; stable_methods).
    specialize (Hst _ Q4). rewrite Hgeo in Hst. exact Hst. }
  destruct Q4 as (_ & Hn4 & Hfd4 & Hss4 & _).
  destruct (multifacet_geometry_ok _ _ _ _ _ _ _ _ Hgeo Hn4 Hfd4 Hss4)
    as (Hlen & Hle & _ & Hlast).
  apply bind_ok in H. destruct H as (? & ? & H1 & H). apply update_ok in H1.
  apply bind_ok in H. destruct H as (? & ? & H2 & H). apply update_ok in H2.
  subst.
  apply bind_ok in H. destruct H as (? & w6 & Hsolve & Hpt).
  match type of Hsolve with
  | _ ?w0 = _ =>
      assert (Q6 : Q w6);
      [ assert (Hst : stable Q (for_do kws solve_facet))
          by (unfold Q, run_inputs; stable_methods);
        specialize (Hst w0);
        rewrite Hsolve in Hst; apply Hst; exact Q5
      | assert (P6 : params (self w6) = params (self w5));
        [ assert (Hst : stable (on_self (fun s => params s
                                                  = params (self w5)))
                          (for_do kws solve_facet)) by stable_methods;
          specialize (Hst w0 eq_refl); rewrite Hsolve in Hst; exact Hst
        | ] ]
  end.
  destruct (solve_loop_ok _ _ _ _ [] [] Hsolve eq_refl eq_refl)
    as (solvers & ds & Hs6 & Hd6 & Hlends & Hall).
  cbn [app] in Hs6, Hd6.
  destruct Q6 as (Hot & Hn & Hfd & Hed & Hms & Hens).
  destruct (facet_pointing_shape _ _ _ _ _ _ Hpt Hn Hd6)
    as (tvs & v & R & recs & _ & _ & _ & Hrecs & ->).
  destruct (built_by_index _ _ _ Hrecs) as [Hlenrecs _].
  cbn [self set_self optic_type num_facets data_facet_def data_ensemble_def
       data_surfaces measurement params slope_solver data_calculation_facet
       data_calculation_ensemble set_data_calculation_ensemble].
  repeat split; try assumption.
  - intros Hpos. rewrite P6, (Hlast Hpos). apply seq_last. exact Hpos.
  - exists solvers, ds, recs. repeat split; try assumption.
    rewrite Hlends. exact Hlen.
Qed.

End Runs.

Section RunsOnToy.
#[local] Existing Instance Toy.numbers.
#[local] Existing Instance Toy.records.
#[local] Existing Instance Toy.collaborators.
Import Toy.

Lemma single_facet_run_results_witness :
  optic_type (self processed_single) = Has Single
  /\ data_facet_def (self processed_single) = Has [3%nat]
  /\ data_calculation_facet (self processed_single) = Has [flat_pixel]
  /\ data_calculation_ensemble (self processed_single) = Missing.
Proof.
  destruct (single_facet_run_results 0%nat 0%nat [pt] xy loaded
              processed_single tt)
    as (H1 & _ & H3 & _ & (solver & d & _ & Hd & H5) & _ & _ & H8).
  - unfold processed_single. apply run_returns. reflexivity.
  - injection Hd as <-.
    exact (conj H1 (conj H3 (conj H5 H8))).
Defined.

Lemma multi_facet_run_results_witness :
  num_facets (self processed_two) = Has 2%nat
  /\ data_facet_def (self processed_two) = Has [3%nat; 4%nat]
  /\ data_ensemble_def (self processed_two) = Has 3%nat
  /\ optic_data (debug_slope_solver (params (self processed_two)))
     = Some 4%nat.
Proof.
  destruct (multi_facet_run_results [0; 1]%nat [0; 1]%nat 1%nat
              [pt; pt] [xy; xy] loaded processed_two tt)
    as (_ & H2 & H3 & H4 & _ & _ & _ & H8 & _).
  - unfold processed_two. apply run_returns. reflexivity.
  - exact (conj H2 (conj H3 (conj H4 (H8 ltac:(simpl; lia))))).
Defined.

End RunsOnToy.

(* ================================================================== *)
(** * Pointing without an ensemble *)
(* ================================================================== *)

Section PointingWithoutEnsemble.
Context {Num : Numbers} {Rec : Records} {Col : Collaborators}.

(** [_calculate_facet_pointing] on results that have no ensemble
    definition, as after a single-facet run on a new instance: the call
    gets past its checks, empties [data_calculation_ensemble], and ends in
    an [AttributeError] at the first facet. *)
Theorem facet_pointing_without_ensemble_definition :
  forall (reference : Reference) (w : World) (n : nat)
         (dcf : list SlopeSolverData),
    data_calculation_facet (self w) = Has dcf ->
    num_facets (self w) = Has (S n) ->
    data_ensemble_def (self w) = Missing ->
    reference_accepted reference (S n) = true ->
    _calculate_facet_pointing reference w
    = (Raise (AttributeError "data_ensemble_def"),
       set_self (set_data_calculation_ensemble (Has []) (self w)) w).
Proof.
  intros reference w n dcf Hdcf Hn Hed Href.
  unfold _calculate_facet_pointing.
  unfold bind at 1. unfold getattr at 1. rewrite Hdcf.
  unfold bind at 1. cbn [ret].
  assert (Hcheck1 :
            match reference with
            | RefInt _ => ret tt
            | RefStr s =>
                if String.eqb s "average" then ret tt
                else error_and_raise ValueError MsgBadReference
            | RefOther => error_and_raise ValueError MsgBadReference
            end w = (Ok tt, w)).
  { destruct reference as [s|i|]; unfold reference_accepted in Href;
      [rewrite Href| |discriminate Href]; reflexivity. }
  unfold bind at 1. rewrite Hcheck1.
  assert (Hcheck2 :
            match reference with
            | RefInt i =>
                bind (getattr "num_facets" num_facets)
                  (fun nf =>
                     bind (not_none nf)
                       (fun n0 =>
                          if (Z.of_nat n0 <=? i)%Z
                          then error_and_raise ValueError
                                 (MsgIndexOutOfRange i n0)
                          else ret tt))
            | _ => ret tt
            end w = (Ok tt, w)).
  { destruct reference as [s|i|]; unfold reference_accepted in Href;
      try reflexivity.
    unfold bind, getattr. rewrite Hn. cbn [not_none ret].
    destruct (Z.of_nat (S n) <=? i)%Z; [discriminate Href|reflexivity]. }
  unfold bind at 1. rewrite Hcheck2.
  unfold bind at 1. unfold update at 1.
  unfold bind at 1. unfold getattr at 1.
  cbn [self set_self num_facets set_data_calculation_ensemble].
  rewrite Hn.
  unfold bind at 1. cbn [not_none ret].
  unfold bind at 1. unfold getattr at 1.
  cbn [self set_self num_facets set_data_calculation_ensemble].
  rewrite Hn.
  unfold bind at 1. cbn [not_none ret].
  unfold bind at 1. cbn [seq for_each].
  unfold bind at 1. unfold facet_transform at 1.
  unfold bind at 1. unfold getattr at 1.
  cbn [self set_self data_ensemble_def set_data_calculation_ensemble].
  rewrite Hed. reflexivity.
Qed.

End PointingWithoutEnsemble.

Section PointingWithoutEnsembleOnToy.
#[local] Existing Instance Toy.numbers.
#[local] Existing Instance Toy.records.
#[local] Existing Instance Toy.collaborators.
Import Toy.

Lemma facet_pointing_without_ensemble_definition_witness :
  _calculate_facet_pointing (RefInt 0) processed_single
  = (Raise (AttributeError "data_ensemble_def"),
     set_self (set_data_calculation_ensemble (Has []) (self processed_single))
       processed_single).
Proof.
  apply (facet_pointing_without_ensemble_definition (RefInt 0)
           processed_single 0%nat [flat_pixel]); reflexivity.
Defined.

End PointingWithoutEnsembleOnToy.
